(** * Neural Symphony: deployment workflow and chat-completion adapter

    A shallow embedding of two scripts of the repository:

    - [deploy-quick.py]: the [NeuralSymphonyDeployer] class and the command
      line entry point (module [Deploy]);
    - [scripts/transformers-server.py]: the [chat_completions] request
      handler (module [Server]).

    Module [Py] holds the pieces of Python both scripts lean on: exceptions
    and their class hierarchy, the outcome of a statement, text helpers
    ([str.strip], [str.lower], [str.split], the [in] test on strings) and
    JSON-like values with their truth value.

    The statements are in [ServerProps] and [DeployProps]; the words they
    use and the sample inputs of the examples are in [ServerSpec] and
    [DeploySpec]. *)

From Stdlib Require Import ZArith String Ascii List PrimFloat Lia.
From stdpp Require Import base option list gmap strings pretty.

#[local] Set Warnings "-inexact-float,-register-all".
#[local] Open Scope Z_scope.

(* ===================================================================== *)
(** * Python values, exceptions and text *)
(* ===================================================================== *)
Module Py.

(** ** JSON-like values: what a decoded request body and the pipeline's
    output are made of. *)
Inductive pyval :=
| PNone
| PBool (b : bool)
| PInt (z : Z)
| PFloat (f : float)
| PStr (s : string)
| PList (l : list pyval)
| PDict (d : gmap string pyval).

(** [bool(v)]: the truth value that [not v] negates. *)
Definition truthy (v : pyval) : bool :=
  match v with
  | PNone => false
  | PBool b => b
  | PInt z => negb (z =? 0)
  | PFloat f => negb (PrimFloat.eqb f 0%float)
  | PStr s => negb (bool_decide (s = EmptyString))
  | PList l => negb (bool_decide (l = []))
  | PDict d => negb (bool_decide (d = ∅))
  end.

(** [d.get(key, default)] *)
Definition dict_get (d : gmap string pyval) (key : string) (dflt : pyval) : pyval :=
  default dflt (d !! key).

(** ** Exceptions

    [KeyboardInterrupt] and [SystemExit] derive from
    [BaseException] only; every other class below derives from [Exception]
    (for [HTTPException] through Starlette's class of the same name). *)
Inductive exn :=
| KeyboardInterrupt
| SystemExit (code : Z)
| FileNotFoundError
| TimeoutExpired
| CalledProcessError (returncode : Z) (cmd : list string)
| HTTPException (status_code : Z) (detail : string)
| IndexError
| KeyError (key : pyval)
| TypeError
| AttributeError
| OtherException (cls : string) (msg : string).

(** [isinstance(e, Exception)]. *)
Definition is_Exception (e : exn) : bool :=
  match e with
  | KeyboardInterrupt | SystemExit _ => false
  | _ => true
  end.

(** A statement or call either completes with a value or raises. *)
Inductive result (A : Type) :=
| Ok (a : A)
| Raise (e : exn).
Arguments Ok {A} a.
Arguments Raise {A} e.

(** ** Text

    A [string] stands for a Python [str] whose code points are below 256,
    one character per code point. *)

Definition nl : string := String "010"%char EmptyString.
Definition dq : string := String "034"%char EmptyString.

(** [c.isspace()] for one character: tab, line feed, vertical tab, form
    feed, carriage return, the four separators 28..31, space, NEL (133) and
    the no-break space (160). *)
Definition is_space (c : ascii) : bool :=
  let n := nat_of_ascii c in
  ((9 <=? n) && (n <=? 13) || (28 <=? n) && (n <=? 32)
   || (n =? 133) || (n =? 160))%nat.

(** [c.lower()] for one character: A..Z, and the Latin-1 capitals 192..222
    without the multiplication sign 215. *)
Definition lower_char (c : ascii) : ascii :=
  let n := nat_of_ascii c in
  if ((65 <=? n) && (n <=? 90)
      || (192 <=? n) && (n <=? 222) && negb (n =? 215))%nat
  then ascii_of_nat (n + 32) else c.

Fixpoint lower (s : string) : string :=
  match s with
  | EmptyString => EmptyString
  | String c s' => String (lower_char c) (lower s')
  end.

Fixpoint lstrip (s : string) : string :=
  match s with
  | EmptyString => EmptyString
  | String c s' => if is_space c then lstrip s' else s
  end.

(** [rstrip] keeps a character when it is not white space or when something
    is kept after it. *)
Fixpoint rstrip (s : string) : string :=
  match s with
  | EmptyString => EmptyString
  | String c s' =>
      match rstrip s' with
      | EmptyString => if is_space c then EmptyString else String c EmptyString
      | t => String c t
      end
  end.

(** [s.strip()] *)
Definition strip (s : string) : string := rstrip (lstrip s).

(** [s.split()] with no separator: the maximal runs of characters that are
    not white space, in order.  [cur] is the run being read, reversed. *)
Fixpoint split_aux (cur : list ascii) (s : string) : list string :=
  let flush (k : list string) :=
    match cur with
    | [] => k
    | _ => string_of_list_ascii (rev cur) :: k
    end in
  match s with
  | EmptyString => flush []
  | String c s' =>
      if is_space c then flush (split_aux [] s') else split_aux (c :: cur) s'
  end.

Definition split (s : string) : list string := split_aux [] s.

Fixpoint prefix_of (p s : string) : bool :=
  match p, s with
  | EmptyString, _ => true
  | String a p', String b s' => bool_decide (a = b) && prefix_of p' s'
  | String _ _, EmptyString => false
  end.

(** [needle in hay] on strings. *)
Fixpoint contains (needle hay : string) : bool :=
  prefix_of needle hay ||
  match hay with
  | EmptyString => false
  | String _ hay' => contains needle hay'
  end.

(** [c * n] for a one-character string [c]. *)
Fixpoint repeat_str (c : string) (n : nat) : string :=
  match n with
  | O => EmptyString
  | S n' => c +:+ repeat_str c n'
  end.

(** [str(x)] for an optional string, as an f-string renders it. *)
Definition fmt_opt (o : option string) : string :=
  match o with
  | Some s => s
  | None => "None"
  end.

(** ** Statements with effects

    A computation reads and updates a state [S] and completes or raises.
    [≫=] is statement sequencing: a raised exception skips what follows. *)
Definition M (S A : Type) : Type := S → result A * S.

#[export] Instance M_ret {S} : MRet (M S) := λ A a s, (Ok a, s).

#[export] Instance M_bind {S} : MBind (M S) := λ A B f m s,
  match m s with
  | (Ok a, s') => f a s'
  | (Raise e, s') => (Raise e, s')
  end.

(** [raise e] *)
Definition raise {S A} (e : exn) : M S A := λ s, (Raise e, s).

(** [try: body / except ...: handler]: [handler e] is [None] when no except
    clause matches [e], which then propagates. *)
Definition try_except {S A} (body : M S A) (handler : exn → option (M S A)) : M S A :=
  λ s,
    match body s with
    | (Ok a, s') => (Ok a, s')
    | (Raise e, s') =>
        match handler e with
        | Some h => h s'
        | None => (Raise e, s')
        end
    end.

(** [try: body / finally: final]: [final] runs whatever [body] did; an
    exception of [final] replaces the outcome of [body]. *)
Definition try_finally {S A} (body : M S A) (final : M S unit) : M S A :=
  λ s,
    let '(r, s') := body s in
    match final s' with
    | (Ok _, s'') => (r, s'')
    | (Raise e, s'') => (Raise e, s'')
    end.

(** The outcome of a call as a value: what a [try] with a bare [except]
    around a single call observes. *)
Definition outcome_of {S A} (m : M S A) : M S (result A) :=
  λ s, let '(r, s') := m s in (Ok r, s').

End Py.

(* ===================================================================== *)
(** * scripts/transformers-server.py *)
(* ===================================================================== *)
Module Server.
Import Py.

(** The text-generation pipeline that [initialize_model] stores in the
    module-level [pipe]; the handler uses three things of it. *)
Record pipeline := {
  (** [pipe.tokenizer.apply_chat_template(messages, tokenize=False,
      add_generation_prompt=True)] *)
  apply_chat_template : pyval → result string;
  (** [pipe.tokenizer.eos_token_id] *)
  eos_token_id : pyval;
  (** [pipe(prompt, **generation_args)] *)
  generate : string → gmap string pyval → result pyval
}.

(** What a request makes the process do besides answering. *)
Inductive event :=
| EvTemplate (messages : pyval)
| EvGenerate (prompt : string) (generation_args : gmap string pyval)
| EvLogError (msg : string).

(** Events are kept most recent first. *)
Definition emit (e : event) : M (list event) unit := λ log, (Ok tt, e :: log).

Definition call {A} (e : event) (r : result A) : M (list event) A :=
  λ log, (r, e :: log).

Definition lift {A} (r : result A) : M (list event) A := λ log, (r, log).

(** [v[0]] *)
Definition subscript_0 (v : pyval) : result pyval :=
  match v with
  | PList (x :: _) => Ok x
  | PList [] => Raise IndexError
  | PStr (String c _) => Ok (PStr (String c EmptyString))
  | PStr EmptyString => Raise IndexError
  | PDict _ => Raise (KeyError (PInt 0))
  | _ => Raise TypeError
  end.

(** [v[key]] for a string [key] *)
Definition subscript_key (v : pyval) (key : string) : result pyval :=
  match v with
  | PDict d =>
      match d !! key with
      | Some x => Ok x
      | None => Raise (KeyError (PStr key))
      end
  | _ => Raise TypeError
  end.

(** [len(v.split())] *)
Definition len_split (v : pyval) : result Z :=
  match v with
  | PStr s => Ok (Z.of_nat (length (split s)))
  | _ => Raise AttributeError
  end.

Section Handler.
(** [str(e)] on an exception object. *)
Variable str_of_exn : exn → string.

(** The module-level [pipe]: [None] until [initialize_model] has built
    the pipeline. *)
Variable pipe : option pipeline.

(** The dictionary [generation_args] that the handler builds. *)
Definition generation_args (p : pipeline) (request : gmap string pyval) : gmap string pyval :=
  {[ "max_new_tokens" := dict_get request "max_tokens" (PInt 1024);
     "temperature" := dict_get request "temperature" (PFloat 0.7);
     "top_p" := dict_get request "top_p" (PFloat 0.9);
     "do_sample" := PBool true;
     "pad_token_id" := eos_token_id p;
     "return_full_text" := PBool false ]}.

(** The body of the [try] statement, for a loaded pipeline [p]. *)
Definition generation (p : pipeline) (request : gmap string pyval) : M (list event) pyval :=
  let messages := dict_get request "messages" (PList []) in
  if negb (truthy messages)
  then raise (HTTPException 400 "No messages provided")
  else
    prompt ← call (EvTemplate messages) (apply_chat_template p messages);
    let args := generation_args p request in
    outputs ← call (EvGenerate prompt args) (generate p prompt args);
    first ← lift (subscript_0 outputs);
    generated_text ← lift (subscript_key first "generated_text");
    prompt_tokens ← lift (len_split (PStr prompt));
    completion_tokens ← lift (len_split generated_text);
    mret (PDict
      {[ "choices" := PList [ PDict
           {[ "message" := PDict {[ "role" := PStr "assistant";
                                    "content" := generated_text ]};
              "finish_reason" := PStr "stop" ]} ];
         "usage" := PDict
           {[ "prompt_tokens" := PInt prompt_tokens;
              "completion_tokens" := PInt completion_tokens;
              "total_tokens" := PInt (prompt_tokens + completion_tokens) ]} ]}).

(** [async def chat_completions(request: dict)] *)
Definition chat_completions (request : gmap string pyval) : M (list event) pyval :=
  match pipe with
  | None => raise (HTTPException 503 "Model not initialized")
  | Some p =>
      try_except (generation p request)
        (λ e,
          if is_Exception e
          then Some (emit (EvLogError ("Generation error: " +:+ str_of_exn e));;
                     raise (HTTPException 500 (str_of_exn e)))
          else None)
  end.
End Handler.

(** The status line FastAPI answers with: that of a raised
    [HTTPException], 200 for a returned body, 500 for any other exception. *)
Definition status_of (r : result pyval) : Z :=
  match r with
  | Ok _ => 200
  | Raise (HTTPException code _) => code
  | Raise _ => 500
  end.

(** The calls of the pipeline itself among the events. *)
Definition is_generate (e : event) : bool :=
  match e with EvGenerate _ _ => true | _ => false end.

Definition generation_calls (log : list event) : list event :=
  List.filter is_generate log.

End Server.

(* ===================================================================== *)
(** * deploy-quick.py *)
(* ===================================================================== *)
Module Deploy.
Import Py.

(** ** The world around the script *)

(** [subprocess.CompletedProcess], with the captured streams as text. *)
Record CompletedProcess := {
  returncode : Z;
  stdout : string;
  stderr : string
}.

(** The keyword arguments the script passes to [subprocess.run]. *)
Record run_kwargs := {
  capture_output : bool;
  text : bool;
  check : bool;
  timeout : option Z;
  shell : bool
}.

(** [shell=True] *)
Definition plain : run_kwargs :=
  {| capture_output := false; text := false; check := false;
     timeout := None; shell := true |}.

(** [capture_output=True, text=True, shell=True] *)
Definition captured_text : run_kwargs :=
  {| capture_output := true; text := true; check := false;
     timeout := None; shell := true |}.

(** Everything the script does to the outside, with what came back.  An
    [EvRun] holds the argument list and keyword arguments as the script
    hands them to [subprocess.run]; what the shell makes of them is the
    environment's business. *)
Inductive event :=
| EvPrint (line : string)
| EvRun (args : list string) (kw : run_kwargs) (r : result CompletedProcess)
| EvInput (prompt : string) (r : result string)
| EvSleep (secs : Z) (r : result unit)
| EvWrite (path : string) (content : string)
| EvRemove (path : string).

(** The provider tool, the operator and the clock: each answers a call
    knowing the events so far (most recent first).  An answer is a value
    or an exception, [KeyboardInterrupt] included.  [str_of_exn] is
    Python's [str(e)]. *)
Record environment := {
  run_outcome : list event → list string → run_kwargs → result CompletedProcess;
  input_outcome : list event → string → result string;
  sleep_outcome : list event → Z → result unit;
  str_of_exn : exn → string
}.

(** The attributes of a [NeuralSymphonyDeployer]. *)
Record Deployer := {
  project_id : option string;
  instance_name : string;
  zone : string;
  machine_type : string
}.

(** The state of a run: the deployer object, the files of the working
    directory (path to content), and the events so far, most recent
    first. *)
Record world := {
  self : Deployer;
  files : gmap string string;
  events : list event
}.

Definition add_events (evs : list event) (w : world) : world :=
  {| self := self w; files := files w; events := evs ++ events w |}.

(** The argument lists of the provider calls among [evs], oldest first. *)
Definition run_args (e : event) : option (list string) :=
  match e with
  | EvRun args _ _ => Some args
  | _ => None
  end.

Definition provider_calls (evs : list event) : list (list string) :=
  rev (omap run_args evs).

(** How many times [cmd] was run, and how many sleeps there were. *)
Definition is_run_of (cmd : list string) (e : event) : bool :=
  match e with
  | EvRun args _ _ => bool_decide (args = cmd)
  | _ => false
  end.

Definition runs_of (cmd : list string) (evs : list event) : nat :=
  length (List.filter (is_run_of cmd) evs).

Definition is_sleep (e : event) : bool :=
  match e with EvSleep _ _ => true | _ => false end.

Definition sleeps (evs : list event) : nat := length (List.filter is_sleep evs).

(** [s1 + "\n" + s2 + "\n" + ...] *)
Definition unlines (ls : list string) : string :=
  foldr (λ l acc, l +:+ nl +:+ acc) EmptyString ls.

(** [NeuralSymphonyDeployer()]: the attributes [__init__] sets. *)
Definition NeuralSymphonyDeployer : Deployer :=
  {| project_id := None;
     instance_name := "neural-symphony-gpu";
     zone := "us-east4-a";
     machine_type := "g2-standard-8" |}.

Section Script.
Variable env : environment.

(** ** Primitive statements *)

Definition record (e : event) : M world unit := λ w, (Ok tt, add_events [e] w).

(** [print(line)] *)
Definition print (line : string) : M world unit := record (EvPrint line).

(** [subprocess.run(args, **kw)]; with [check=True] a non-zero exit status
    raises [CalledProcessError]. *)
Definition subprocess_run (args : list string) (kw : run_kwargs) : M world CompletedProcess :=
  λ w,
    let r :=
      match run_outcome env (events w) args kw with
      | Ok cp =>
          if check kw && negb (returncode cp =? 0)
          then Raise (CalledProcessError (returncode cp) args)
          else Ok cp
      | Raise e => Raise e
      end in
    (r, add_events [EvRun args kw r] w).

(** [input(prompt)] *)
Definition input (prompt : string) : M world string :=
  λ w,
    let r := input_outcome env (events w) prompt in
    (r, add_events [EvInput prompt r] w).

(** [time.sleep(secs)] *)
Definition sleep (secs : Z) : M world unit :=
  λ w,
    let r := sleep_outcome env (events w) secs in
    (r, add_events [EvSleep secs r] w).

(** [with open(path, 'w') as f: f.write(content)] *)
Definition write_file (path content : string) : M world unit :=
  λ w, (Ok tt, {| self := self w;
                  files := <[path := content]> (files w);
                  events := EvWrite path content :: events w |}).

(** [os.path.exists(path)] *)
Definition path_exists (path : string) : M world bool :=
  λ w, (Ok (bool_decide (is_Some (files w !! path))), w).

(** [os.remove(path)] *)
Definition remove (path : string) : M world unit :=
  λ w,
    match files w !! path with
    | Some _ => (Ok tt, {| self := self w;
                           files := delete path (files w);
                           events := EvRemove path :: events w |})
    | None => (Raise FileNotFoundError, w)
    end.

(** [sys.exit(code)] *)
Definition sys_exit {A} (code : Z) : M world A := raise (SystemExit code).

(** Reading [self], and the assignment [self.project_id = p]. *)
Definition get_self : M world Deployer := λ w, (Ok (self w), w).

Definition set_project_id (p : string) : M world unit :=
  λ w, (Ok tt, {| self := {| project_id := Some p;
                             instance_name := instance_name (self w);
                             zone := zone (self w);
                             machine_type := machine_type (self w) |};
                  files := files w;
                  events := events w |}).

(** [deployer = NeuralSymphonyDeployer()]: from here on [self] is a fresh
    deployer. *)
Definition new_deployer : M world unit :=
  λ w, (Ok tt, {| self := NeuralSymphonyDeployer;
                  files := files w; events := events w |}).

(** [for x in xs: body(x)] *)
Fixpoint for_each {A} (xs : list A) (body : A → M world unit) : M world unit :=
  match xs with
  | [] => mret tt
  | x :: xs' => body x;; for_each xs' body
  end.

(** ** [class NeuralSymphonyDeployer] *)

Definition print_status (msg : string) : M world unit := print ("[INFO] " +:+ msg).
Definition print_success (msg : string) : M world unit := print ("[SUCCESS] " +:+ msg).
Definition print_error (msg : string) : M world unit := print ("[ERROR] " +:+ msg).
Definition print_warning (msg : string) : M world unit := print ("[WARNING] " +:+ msg).

(** The two flags almost every command ends with. *)
Definition zone_flag (s : Deployer) : string := "--zone=" +:+ zone s.
Definition project_flag (s : Deployer) : string := "--project=" +:+ fmt_opt (project_id s).

Definition check_gcloud : M world bool :=
  try_except
    (result ← subprocess_run ["gcloud"; "auth"; "list"] captured_text;
     if negb (returncode result =? 0)
     then
       print_error "gcloud is not installed or not authenticated";;
       print "Please install Google Cloud CLI: https://cloud.google.com/sdk/docs/install";;
       mret false
     else
       result ← subprocess_run ["gcloud"; "config"; "get-value"; "project"] captured_text;
       if (returncode result =? 0) && negb (bool_decide (strip (stdout result) = EmptyString))
       then
         set_project_id (strip (stdout result));;
         print_success ("Using project: " +:+ strip (stdout result));;
         mret true
       else
         line ← input "Enter your Google Cloud Project ID: ";
         let project_id := strip line in
         if bool_decide (project_id = EmptyString)
         then print_error "Project ID is required";; mret false
         else set_project_id project_id;; mret true)
    (λ e,
      match e with
      | FileNotFoundError => Some (print_error "gcloud command not found";; mret false)
      | _ => None
      end).

Definition enable_apis : M world unit :=
  print_status "Enabling required APIs...";;
  s ← get_self;
  for_each ["compute.googleapis.com"; "storage.googleapis.com"]
    (λ api,
      subprocess_run ["gcloud"; "services"; "enable"; api; project_flag s]
        {| capture_output := false; text := false; check := true;
           timeout := None; shell := true |};;
      mret tt);;
  print_success "APIs enabled".

Definition startup_script : string :=
  unlines [
    "#!/bin/bash";
    "set -e";
    "export DEBIAN_FRONTEND=noninteractive";
    EmptyString;
    "log() {";
    "    echo " +:+ dq +:+ "$(date) [STARTUP] $1" +:+ dq +:+ " | tee -a /var/log/neural-symphony.log";
    "}";
    EmptyString;
    "log " +:+ dq +:+ "Starting Neural Symphony GPU setup..." +:+ dq;
    EmptyString;
    "# Update system";
    "apt-get update -y";
    "apt-get install -y curl wget git htop build-essential";
    EmptyString;
    "# Install NVIDIA drivers and CUDA";
    "log " +:+ dq +:+ "Setting up NVIDIA environment..." +:+ dq;
    "apt-get install -y nvidia-driver-535";
    "apt-get install -y nvidia-cuda-toolkit";
    EmptyString;
    "# Install Miniconda";
    "log " +:+ dq +:+ "Installing Miniconda..." +:+ dq;
    "wget https://repo.anaconda.com/miniconda/Miniconda3-latest-Linux-x86_64.sh -O /tmp/miniconda.sh";
    "bash /tmp/miniconda.sh -b -p /opt/miniconda3";
    "export PATH=" +:+ dq +:+ "/opt/miniconda3/bin:$PATH" +:+ dq;
    "/opt/miniconda3/bin/conda init bash";
    EmptyString;
    "# Create conda environment";
    "log " +:+ dq +:+ "Creating neural-symphony environment..." +:+ dq;
    "/opt/miniconda3/bin/conda create -n neural-symphony python=3.10 -y";
    EmptyString;
    "# Install dependencies";
    "log " +:+ dq +:+ "Installing Python packages..." +:+ dq;
    "source /opt/miniconda3/bin/activate neural-symphony";
    EmptyString;
    "pip install torch torchvision torchaudio --index-url https://download.pytorch.org/whl/cu118";
    "pip install transformers accelerate bitsandbytes";
    "pip install fastapi uvicorn websockets";
    "pip install huggingface_hub";
    EmptyString;
    "# Try TensorRT-LLM";
    "pip install tensorrt-llm --extra-index-url https://pypi.nvidia.com || echo " +:+ dq +:+ "TensorRT-LLM not available, using Transformers" +:+ dq;
    EmptyString;
    "# Install Node.js";
    "curl -fsSL https://deb.nodesource.com/setup_18.x | bash -";
    "apt-get install -y nodejs";
    EmptyString;
    "# Create working directory";
    "mkdir -p /opt/neural-symphony";
    "cd /opt/neural-symphony";
    EmptyString;
    "# Download gpt-oss-20b model";
    "log " +:+ dq +:+ "Downloading gpt-oss-20b model (this will take a while)..." +:+ dq;
    "python -c " +:+ dq;
    "from huggingface_hub import snapshot_download";
    "snapshot_download('openai/gpt-oss-20b', local_dir='models/gpt-oss-20b')";
    "print('Model downloaded successfully!')";
    dq;
    EmptyString;
    "# Setup nginx proxy";
    "apt-get install -y nginx";
    "cat > /etc/nginx/sites-available/default << 'NGINX_EOF'";
    "server {";
    "    listen 80 default_server;";
    "    location / { proxy_pass http://127.0.0.1:3000; }";
    "    location /api { proxy_pass http://127.0.0.1:3001; }";
    "}";
    "NGINX_EOF";
    EmptyString;
    "systemctl restart nginx";
    "systemctl enable nginx";
    EmptyString;
    "# Setup firewall";
    "ufw allow ssh";
    "ufw allow http";
    "ufw --force enable";
    EmptyString;
    "log " +:+ dq +:+ "Neural Symphony setup completed!" +:+ dq;
    "echo " +:+ dq +:+ "ready" +:+ dq +:+ " > /opt/neural-symphony-ready";
    EmptyString
  ].

Definition create_startup_script : M world unit :=
  write_file "startup-script.sh" startup_script;;
  print_success "Startup script created".

Definition describe_cmd (s : Deployer) : list string :=
  ["gcloud"; "compute"; "instances"; "describe";
   instance_name s; zone_flag s; project_flag s].

Definition delete_cmd (s : Deployer) : list string :=
  ["gcloud"; "compute"; "instances"; "delete";
   instance_name s; zone_flag s; project_flag s; "--quiet"].

Definition create_cmd (s : Deployer) : list string :=
  ["gcloud"; "compute"; "instances"; "create"; instance_name s;
   project_flag s;
   zone_flag s;
   "--machine-type=" +:+ machine_type s;
   "--network-interface=network-tier=PREMIUM,stack-type=IPV4_ONLY,subnet=default";
   "--metadata=enable-osconfig=TRUE";
   "--maintenance-policy=TERMINATE";
   "--provisioning-model=STANDARD";
   "--service-account=275263642759-compute@developer.gserviceaccount.com";
   "--scopes=https://www.googleapis.com/auth/devstorage.read_only,https://www.googleapis.com/auth/logging.write,https://www.googleapis.com/auth/monitoring.write,https://www.googleapis.com/auth/service.management.readonly,https://www.googleapis.com/auth/servicecontrol,https://www.googleapis.com/auth/trace.append";
   "--accelerator=count=1,type=nvidia-l4";
   "--create-disk=auto-delete=yes,boot=yes,device-name=instance-20250809-024555,image=projects/debian-cloud/global/images/debian-12-bookworm-v20250709,mode=rw,size=10,type=pd-balanced";
   "--no-shielded-secure-boot";
   "--shielded-vtpm";
   "--shielded-integrity-monitoring";
   "--labels=goog-ops-agent-policy=v2-x86-template-1-4-0,goog-ec-src=vm_add-gcloud";
   "--reservation-affinity=any";
   "--metadata-from-file=startup-script=startup-script.sh";
   "--tags=http-server,https-server"].

(** The first [try] statement of [create_instance]: [true] when it ends
    in [return], [false] when control goes on to the creation.  Its bare
    [except: pass] swallows every exception. *)
Definition check_existing (s : Deployer) : M world bool :=
  try_except
    (result ← subprocess_run (describe_cmd s) captured_text;
     if returncode result =? 0
     then
       print_warning "Instance already exists!";;
       line ← input "Delete and recreate? (y/N): ";
       let response := lower (strip line) in
       if bool_decide (response = "y")
       then subprocess_run (delete_cmd s) plain;; mret false
       else mret true
     else mret false)
    (λ _, Some (mret false)).

Definition create_instance : M world unit :=
  print_status "Creating GPU instance (this takes 2-3 minutes)...";;
  s ← get_self;
  returned ← check_existing s;
  if (returned : bool) then mret tt
  else
    result ← subprocess_run (create_cmd s) captured_text;
    (if negb (returncode result =? 0)
     then
       print_error ("Failed to create instance: " +:+ stderr result);;
       (if contains "quota" (lower (stderr result))
        then
          print_warning "GPU quota exceeded. Request quota increase at:";;
          print "https://console.cloud.google.com/iam-admin/quotas"
        else mret tt);;
       sys_exit 1
     else mret tt);;
    print_success "Instance created!".

Definition firewall_cmd (s : Deployer) : list string :=
  ["gcloud"; "compute"; "firewall-rules"; "create"; "neural-symphony-web";
   project_flag s;
   "--allow=tcp:80,tcp:443,tcp:3000,tcp:3001";
   "--source-ranges=0.0.0.0/0";
   "--target-tags=http-server,https-server"].

Definition setup_firewall : M world unit :=
  print_status "Setting up firewall...";;
  s ← get_self;
  try_except
    (subprocess_run (firewall_cmd s)
       {| capture_output := true; text := false; check := false;
          timeout := None; shell := true |};;
     mret tt)
    (λ _, Some (mret tt));;
  print_success "Firewall configured".

Definition ready_cmd (s : Deployer) : list string :=
  ["gcloud"; "compute"; "ssh"; instance_name s; zone_flag s; project_flag s;
   "--command=test -f /opt/neural-symphony-ready"].

Definition ready_kw : run_kwargs :=
  {| capture_output := true; text := true; check := false;
     timeout := Some 30; shell := true |}.

Definition max_attempts : nat := 100.

(** What is left of an iteration of the loop of [wait_for_ready] when the
    check did not succeed: the progress line on every sixth attempt, the
    pause, and then the next iteration. *)
Definition next_attempt (attempt : nat) (continue : M world unit) : M world unit :=
  (if (attempt mod 6 =? 0)%nat
   then print_status ("Still setting up... (" +:+ pretty (attempt / 6)%nat
                      +:+ "/15 minutes)")
   else mret tt);;
  sleep 10;;
  continue.

(** The [for attempt in range(max_attempts)] loop over the attempts still
    to come; the empty list is the [else] clause of the loop, and
    returning without recursion is [break].  Both [except] clauses of the
    inner [try] are [pass], so an exception of the check counts as an
    attempt that did not succeed. *)
Fixpoint poll (attempts : list nat) : M world unit :=
  match attempts with
  | [] => print_warning "Setup may still be in progress. Check manually."
  | attempt :: rest =>
      s ← get_self;
      r ← outcome_of (subprocess_run (ready_cmd s) ready_kw);
      match r with
      | Ok result =>
          if returncode result =? 0
          then print_success "Setup completed!"
          else next_attempt attempt (poll rest)
      | Raise _ => next_attempt attempt (poll rest)
      end
  end.

Definition wait_for_ready : M world unit :=
  print_status "Waiting for setup to complete...";;
  print_status "This will take 10-15 minutes (downloading 40GB model)...";;
  poll (seq 0 max_attempts).

Definition get_instance_ip : M world string :=
  s ← get_self;
  result ← subprocess_run
    ["gcloud"; "compute"; "instances"; "describe"; instance_name s;
     zone_flag s; project_flag s;
     "--format=value(networkInterfaces[0].accessConfigs[0].natIP)"]
    captured_text;
  mret (strip (stdout result)).

Definition setup_continuous_deployment (repo_url : string) : M world unit :=
  print_status "Setting up continuous deployment...";;
  s ← get_self;
  subprocess_run
    ["gcloud"; "compute"; "ssh"; instance_name s; zone_flag s; project_flag s;
     "--command=" +:+ nl
       +:+ "                cd /opt/neural-symphony &&" +:+ nl
       +:+ "                git clone " +:+ repo_url +:+ " . &&" +:+ nl
       +:+ "                npm install &&" +:+ nl
       +:+ "                cd src/frontend && npm install && npm run build && cd ../.. &&" +:+ nl
       +:+ "                sudo systemctl restart nginx" +:+ nl
       +:+ "            "]
    plain;;
  print_success "Continuous deployment configured!".

Definition show_results : M world unit :=
  ip ← get_instance_ip;
  s ← get_self;
  let target :=
    instance_name s +:+ " --zone=" +:+ zone s
    +:+ " --project=" +:+ fmt_opt (project_id s) in
  print (nl +:+ repeat_str "=" 60);;
  print "Neural Symphony deployed successfully!";;
  print (repeat_str "=" 60);;
  print ("Access URL: http://" +:+ ip);;
  print ("API Endpoint: http://" +:+ ip +:+ "/api");;
  print ("Health Check: http://" +:+ ip +:+ "/api/health");;
  print EmptyString;;
  print "Management Commands:";;
  print ("   SSH: gcloud compute ssh " +:+ target);;
  print ("   Logs: gcloud compute ssh " +:+ target
         +:+ " --command='tail -f /var/log/neural-symphony.log'");;
  print ("   Stop: gcloud compute instances stop " +:+ target);;
  print ("   Delete: gcloud compute instances delete " +:+ target);;
  print EmptyString;;
  print "Cost: ~$1.20/hour";;
  print "Don't forget to stop/delete when done!";;
  print (repeat_str "=" 60).

(** The three parts of the [try] statement of [deploy]. *)
Definition deploy_try : M world bool :=
  enable_apis;;
  create_startup_script;;
  create_instance;;
  setup_firewall;;
  wait_for_ready;;
  line ← input "Enter your private GitHub repo URL (https://github.com/user/repo.git): ";
  let repo_url := strip line in
  (if bool_decide (repo_url = EmptyString)
   then mret tt
   else setup_continuous_deployment repo_url);;
  show_results;;
  mret true.

Definition deploy_except (e : exn) : option (M world bool) :=
  match e with
  | KeyboardInterrupt => Some (print_error "Deployment cancelled";; mret false)
  | _ =>
      if is_Exception e
      then Some (print_error ("Deployment failed: " +:+ str_of_exn env e);; mret false)
      else None
  end.

Definition deploy_finally : M world unit :=
  present ← path_exists "startup-script.sh";
  if (present : bool) then remove "startup-script.sh" else mret tt.

Definition deploy : M world bool :=
  print "Neural Symphony - Quick Cloud Deployment";;
  print (repeat_str "=" 50);;
  ok ← check_gcloud;
  if negb ok then mret false
  else try_finally (try_except deploy_try deploy_except) deploy_finally.

(** [main()], with [argv] for [sys.argv]. *)
Definition main (argv : list string) : M world unit :=
  new_deployer;;
  match argv with
  | _ :: command :: _ =>
      if bool_decide (command = "status")
      then
        ip ← get_instance_ip;
        print ("Neural Symphony: http://" +:+ ip)
      else if bool_decide (command = "clean")
      then
        print "Cleaning up resources...";;
        deployer ← get_self;
        subprocess_run (delete_cmd deployer) plain;;
        print "Cleanup completed"
      else print "Usage: python deploy-quick.py [status|clean]"
  | _ => deploy;; mret tt
  end.

End Script.
End Deploy.

(* ===================================================================== *)
(** * scripts/transformers-server.py: start-up *)
(* ===================================================================== *)
Module ServerStart.
Import Py Server.

(** The keyword arguments of the call of [transformers.pipeline]; a torch
    attribute ([torch.bfloat16], [getattr(torch, dtype)]) is held by its
    name. *)
Record pipeline_call := {
  task : string;
  model : string;
  torch_dtype : string;
  device_map : string;
  trust_remote_code : bool;
  model_kwargs : gmap string pyval
}.

(** What the script takes from [torch], [transformers], [uvicorn] and the
    interpreter. *)
Record libraries := {
  (** [torch.cuda.is_available()] *)
  cuda_is_available : bool;
  (** whether [torch] has an attribute of that name *)
  torch_has : string → bool;
  (** [str(x)] for the torch attribute of that name *)
  str_of_attr : string → string;
  (** [pipeline(task, model=..., ...)] *)
  build_pipeline : pipeline_call → result pipeline;
  (** [uvicorn.run(app, host=..., port=...)] *)
  uvicorn_run : string → Z → result unit;
  (** [str(e)] on an exception object *)
  str_of_exn : exn → string
}.

Inductive start_event :=
| EvInfo (msg : string)
| EvError (msg : string)
| EvPrint (line : string)
| EvPipeline (call : pipeline_call) (r : result pipeline)
| EvServe (host : string) (port : Z) (r : result unit).

(** The module-level [pipe] and what the process has done so far, most
    recent first. *)
Record process := {
  pipe : option pipeline;
  trail : list start_event
}.

(** The namespace [parser.parse_args()] returns. *)
Record arguments := {
  arg_model : string;
  arg_model_path : option string;
  arg_host : string;
  arg_port : Z;
  arg_device : string;
  arg_dtype : string;
  arg_max_length : Z
}.

(** The defaults the parser declares. *)
Definition default_arguments : arguments :=
  {| arg_model := "gpt-oss-20b"; arg_model_path := None;
     arg_host := "127.0.0.1"; arg_port := 8000;
     arg_device := "cuda"; arg_dtype := "auto"; arg_max_length := 4096 |}.

Section Start.
Variable lib : libraries.

Definition note (e : start_event) : M process unit :=
  λ st, (Ok tt, {| pipe := pipe st; trail := e :: trail st |}).

Definition logger_info (msg : string) : M process unit := note (EvInfo msg).
Definition logger_error (msg : string) : M process unit := note (EvError msg).
Definition print (line : string) : M process unit := note (EvPrint line).

(** [getattr(torch, name)] *)
Definition torch_getattr (name : string) : M process string :=
  λ st, (if torch_has lib name then Ok name else Raise AttributeError, st).

(** [pipe = pipeline(...)]: the call, and on success the assignment to the
    module-level variable. *)
Definition assign_pipeline (call : pipeline_call) : M process unit :=
  λ st,
    match build_pipeline lib call with
    | Ok p => (Ok tt, {| pipe := Some p;
                         trail := EvPipeline call (Ok p) :: trail st |})
    | Raise e => (Raise e, {| pipe := pipe st;
                              trail := EvPipeline call (Raise e) :: trail st |})
    end.

(** The two statements that determine the model path. *)
Definition model_id (model_name : string) (model_path : option string) : string :=
  let path := default EmptyString model_path in
  let given := negb (bool_decide (path = EmptyString)) in
  let model_id := if given then path else model_name in
  if given && negb (prefix_of "/" path || prefix_of "C:" path)
  then "./models/" +:+ model_name
  else model_id.

Definition initialize_model (model_name : string) (model_path : option string)
    (device dtype : string) : M process bool :=
  try_except
    (logger_info ("Initializing Transformers with model: " +:+ model_name);;
     logger_info ("Using device: " +:+ device);;
     let model_id := model_id model_name model_path in
     torch_dtype ←
       (if bool_decide (dtype = "auto")
        then mret (if cuda_is_available lib then "bfloat16" else "float32")
        else torch_getattr dtype);
     logger_info ("Loading model from: " +:+ model_id);;
     logger_info ("Using dtype: " +:+ str_of_attr lib torch_dtype);;
     assign_pipeline
       {| task := "text-generation";
          model := model_id;
          torch_dtype := torch_dtype;
          device_map := if bool_decide (device = "cuda") then "auto" else device;
          trust_remote_code := true;
          model_kwargs := {[ "low_cpu_mem_usage" := PBool true;
                             "use_cache" := PBool true ]} |};;
     logger_info "Transformers model initialized successfully";;
     print "Model loaded successfully - Server ready";;
     mret true)
    (λ e,
      if is_Exception e
      then Some (logger_error ("Failed to initialize model: " +:+ str_of_exn lib e);;
                 print ("Model initialization failed: " +:+ str_of_exn lib e);;
                 mret false)
      else None).

(** [uvicorn.run(app, host=host, port=port)] *)
Definition serve (host : string) (port : Z) : M process unit :=
  λ st,
    let r := uvicorn_run lib host port in
    (r, {| pipe := pipe st; trail := EvServe host port r :: trail st |}).

(** [main()] from the parsed arguments on. *)
Definition main (args : arguments) : M process unit :=
  success ← initialize_model (arg_model args) (arg_model_path args)
              (arg_device args) (arg_dtype args);
  (if negb success then raise (SystemExit 1) else mret tt);;
  print ("Transformers server ready on " +:+ arg_host args +:+ ":"
         +:+ pretty (arg_port args));;
  serve (arg_host args) (arg_port args).

(** [GET /health] *)
Definition health : pyval :=
  PDict {[ "status" := PStr "healthy"; "backend" := PStr "transformers" ]}.
End Start.

(** The calls of [uvicorn.run] and of [pipeline] among the events. *)
Definition is_serve (e : start_event) : bool :=
  match e with EvServe _ _ _ => true | _ => false end.

Definition pipeline_calls (evs : list start_event) : list pipeline_call :=
  rev (omap (λ e, match e with EvPipeline call _ => Some call | _ => None end) evs).

(** A process in which nothing has been loaded yet. *)
Definition fresh : process := {| pipe := None; trail := [] |}.

End ServerStart.

(* ===================================================================== *)
(** * Vocabulary and sample data for the statements *)
(* ===================================================================== *)
Module ServerSpec.
Import Py Server.

(** Reading a response body the way a client does. *)
Definition field (v : pyval) (key : string) : option pyval :=
  match v with
  | PDict d => d !! key
  | _ => None
  end.

(** [body["choices"]] as a list *)
Definition choices (body : pyval) : list pyval :=
  match field body "choices" with
  | Some (PList l) => l
  | _ => []
  end.

(** [choice["message"][key]] *)
Definition message_field (choice : pyval) (key : string) : option pyval :=
  m ← field choice "message"; field m key.

(** [body["usage"][key]] *)
Definition usage (body : pyval) (key : string) : option pyval :=
  u ← field body "usage"; field u key.

(** Sample data: a pipeline that answers every prompt with [text], and the
    one-message conversation of the interface description. *)
Definition echo_pipe (text : string) : pipeline :=
  {| apply_chat_template := λ _, Ok "<|user|> hello <|assistant|>";
     eos_token_id := PInt 2;
     generate := λ _ _, Ok (PList [PDict {[ "generated_text" := PStr text ]}]) |}.

Definition hello_request : gmap string pyval :=
  {[ "messages" :=
       PList [PDict {[ "role" := PStr "user"; "content" := PStr "hello" ]}] ]}.

(** Starlette renders an [HTTPException] as its status and detail; the
    sample [str] below does that for the one case the examples meet. *)
Definition sample_str (e : exn) : string :=
  match e with
  | HTTPException code detail => pretty code +:+ ": " +:+ detail
  | _ => "error"
  end.

End ServerSpec.

Module DeploySpec.
Import Py Deploy.

(** ** Sample worlds and environments *)

Definition exit_status (code : Z) (out : string) : CompletedProcess :=
  {| returncode := code; stdout := out; stderr := EmptyString |}.

(** A run starts with a fresh deployer, an empty working directory and no
    event. *)
Definition start : world :=
  {| self := NeuralSymphonyDeployer; files := ∅; events := [] |}.

(** A deployer as it is once [check_gcloud] has found the project. *)
Definition configured : world :=
  {| self := {| project_id := Some "demo-project";
                instance_name := "neural-symphony-gpu";
                zone := "us-east4-a";
                machine_type := "g2-standard-8" |};
     files := ∅; events := [] |}.

(** Every provider call succeeds and prints [demo-project]; [answer]
    picks the operator's reply from the prompt. *)
Definition obliging (answer : string → result string) : environment :=
  {| run_outcome := λ _ _ _, Ok (exit_status 0 ("demo-project" +:+ nl));
     input_outcome := λ _ prompt, answer prompt;
     sleep_outcome := λ _ _, Ok tt;
     str_of_exn := λ _, "error" |}.

(** The operator answers [n] to the question about recreating the
    instance and gives no repository. *)
Definition says_no (prompt : string) : result string :=
  if bool_decide (prompt = "Delete and recreate? (y/N): ") then Ok "n" else Ok EmptyString.

(** The operator asks for the instance to be recreated and gives no
    repository. *)
Definition says_yes (prompt : string) : result string :=
  if bool_decide (prompt = "Delete and recreate? (y/N): ") then Ok "y" else Ok EmptyString.

(** The operator asks for the instance to be recreated and interrupts the
    run at the next prompt. *)
Definition interrupted_at_repo (prompt : string) : result string :=
  if bool_decide (prompt = "Delete and recreate? (y/N): ") then Ok "y"
  else Raise KeyboardInterrupt.

(** No instance yet, and its creation is refused for lack of quota. *)
Definition out_of_quota : environment :=
  {| run_outcome := λ _ args _,
       if bool_decide (args = describe_cmd (self configured))
       then Ok (exit_status 1 EmptyString)
       else if bool_decide (args = create_cmd (self configured))
       then Ok {| returncode := 1; stdout := EmptyString;
                  stderr := "Quota 'GPUS_ALL_REGIONS' exceeded." |}
       else Ok (exit_status 0 ("demo-project" +:+ nl));
     input_outcome := λ _ _, Ok EmptyString;
     sleep_outcome := λ _ _, Ok tt;
     str_of_exn := λ _, "error" |}.

(** The readiness check always exits with status 1. *)
Definition never_ready : environment :=
  {| run_outcome := λ _ _ _, Ok (exit_status 1 EmptyString);
     input_outcome := λ _ _, Ok EmptyString;
     sleep_outcome := λ _ _, Ok tt;
     str_of_exn := λ _, "error" |}.

(** The readiness check exits with status 1 twice and with status 0 from
    then on. *)
Definition ready_at_third : environment :=
  {| run_outcome := λ h _ _,
       if (runs_of (ready_cmd (self configured)) h <? 2)%nat
       then Ok (exit_status 1 EmptyString)
       else Ok (exit_status 0 EmptyString);
     input_outcome := λ _ _, Ok EmptyString;
     sleep_outcome := λ _ _, Ok tt;
     str_of_exn := λ _, "error" |}.

(** ** The readiness poller *)

(** An attempt fails when the check exits with a non-zero status or raises;
    it succeeds when the check exits with status 0. *)
Definition poll_failed (r : result CompletedProcess) : Prop :=
  match r with
  | Ok cp => returncode cp ≠ 0
  | Raise _ => True
  end.

Definition poll_succeeded (r : result CompletedProcess) : Prop :=
  match r with
  | Ok cp => returncode cp = 0
  | Raise _ => False
  end.

(** The progress line of a failed attempt, if it has one. *)
Definition progress (attempt : nat) : list event :=
  if (attempt mod 6 =? 0)%nat
  then [EvPrint ("[INFO] Still setting up... (" +:+ pretty (attempt / 6)%nat
                 +:+ "/15 minutes)")]
  else [].

Definition warning : event :=
  EvPrint "[WARNING] Setup may still be in progress. Check manually.".

Definition completed : event := EvPrint "[SUCCESS] Setup completed!".

(** The two lines [wait_for_ready] prints before its loop. *)
Definition announced : list event :=
  [EvPrint "[INFO] This will take 10-15 minutes (downloading 40GB model)...";
   EvPrint "[INFO] Waiting for setup to complete..."].

(** ** The start-up script file *)

Inductive file_op :=
| Written (path : string)
| Removed (path : string).

(** The operations on files among the events of [w], oldest first. *)
Definition file_ops (w : world) : list file_op :=
  rev (omap (λ e, match e with
                  | EvWrite path _ => Some (Written path)
                  | EvRemove path => Some (Removed path)
                  | _ => None
                  end) (events w)).

Definition written_then_removed (w : world) : Prop :=
  file_ops w = [Written "startup-script.sh"; Removed "startup-script.sh"].

(** Statements that leave the working directory as it is. *)
Definition keeps_files {A} (m : M world A) : Prop :=
  ∀ w, files (snd (m w)) = files w.

End DeploySpec.

Module ServerMoreSpec.
Import Py Server ServerSpec ServerStart.

(** A pipeline whose chat template rejects every conversation. *)
Definition no_template : pipeline :=
  {| apply_chat_template := λ _, Raise (OtherException "ValueError" "no chat template");
     eos_token_id := PInt 2;
     generate := λ _ _, Ok (PList []) |}.

(** A pipeline that runs out of memory on every prompt. *)
Definition out_of_memory : pipeline :=
  {| apply_chat_template := λ _, Ok "<|user|> hello <|assistant|>";
     eos_token_id := PInt 2;
     generate := λ _ _, Raise (OtherException "OutOfMemoryError" "CUDA out of memory") |}.

(** The pipeline output the handler can read: a list whose first element
    is a dictionary holding a string under [generated_text]. *)
Definition readable (outputs : pyval) : Prop :=
  ∃ d rest text, outputs = PList (PDict d :: rest)
                 ∧ d !! "generated_text" = Some (PStr text).

(** A pipeline that returns no output at all. *)
Definition no_output : pipeline :=
  {| apply_chat_template := λ _, Ok "<|user|> hello <|assistant|>";
     eos_token_id := PInt 2;
     generate := λ _ _, Ok (PList []) |}.

(** A library in which no model can be loaded, and one in which every
    model loads as the echoing pipeline. *)
Definition no_weights : libraries :=
  {| cuda_is_available := false;
     torch_has := λ _, false;
     str_of_attr := λ name, "torch." +:+ name;
     build_pipeline := λ _, Raise (OtherException "OSError" "model not found");
     uvicorn_run := λ _ _, Ok tt;
     ServerStart.str_of_exn := sample_str |}.

Definition working : libraries :=
  {| cuda_is_available := true;
     torch_has := λ name, bool_decide (name = "float16");
     str_of_attr := λ name, "torch." +:+ name;
     build_pipeline := λ _, Ok (echo_pipe "Hi");
     uvicorn_run := λ _ _, Ok tt;
     ServerStart.str_of_exn := sample_str |}.

End ServerMoreSpec.

Module DeployMoreSpec.
Import Py Deploy DeploySpec.


(** The project query prints nothing and the operator only presses
    return. *)
Definition unconfigured : environment :=
  {| run_outcome := λ _ _ _, Ok (exit_status 0 nl);
     input_outcome := λ _ _, Ok "  ";
     sleep_outcome := λ _ _, Ok tt;
     str_of_exn := λ _, "error" |}.

Definition enable_cmd (s : Deployer) (api : string) : list string :=
  ["gcloud"; "services"; "enable"; api; project_flag s].

Definition checked : run_kwargs :=
  {| capture_output := false; text := false; check := true;
     timeout := None; shell := true |}.

(** The exceptions the two [except] clauses of [deploy] handle. *)
Definition handled (e : exn) : bool :=
  match e with
  | KeyboardInterrupt => true
  | _ => is_Exception e
  end.

(** The provider tool is interrupted whenever it is asked to describe the
    instance. *)
Definition interrupted_describe : environment :=
  {| run_outcome := λ _ args _,
       if bool_decide (args = describe_cmd (self configured))
       then Raise KeyboardInterrupt
       else Ok (exit_status 0 ("demo-project" +:+ nl));
     input_outcome := λ _ _, Ok EmptyString;
     sleep_outcome := λ _ _, Ok tt;
     str_of_exn := λ _, "error" |}.

(** The readiness check fails and every pause is interrupted. *)
Definition interrupted_pause : environment :=
  {| run_outcome := λ _ _ _, Ok (exit_status 1 EmptyString);
     input_outcome := λ _ _, Ok EmptyString;
     sleep_outcome := λ _ _, Raise KeyboardInterrupt;
     str_of_exn := λ _, "error" |}.

(** The lines printed among [evs], oldest first. *)
Definition print_line (e : event) : option string :=
  match e with
  | EvPrint line => Some line
  | _ => None
  end.

Definition printed (evs : list event) : list string := rev (omap print_line evs).

(** The progress lines of a run of failed attempts. *)
Definition progress_lines (attempts : list nat) : list string :=
  flat_map (λ attempt, printed (progress attempt)) attempts.

Definition address_cmd (s : Deployer) : list string :=
  ["gcloud"; "compute"; "instances"; "describe"; instance_name s;
   zone_flag s; project_flag s;
   "--format=value(networkInterfaces[0].accessConfigs[0].natIP)"].

(** A call that raised [FileNotFoundError]. *)
Definition raised_FileNotFoundError (e : event) : bool :=
  match e with
  | EvRun _ _ (Raise FileNotFoundError) => true
  | EvInput _ (Raise FileNotFoundError) => true
  | _ => false
  end.

(** [gcloud auth list] works, the project query cannot be started. *)
Definition vanishing_tool : environment :=
  {| run_outcome := λ _ args _,
       if bool_decide (args = ["gcloud"; "auth"; "list"])
       then Ok (exit_status 0 EmptyString)
       else Raise FileNotFoundError;
     input_outcome := λ _ _, Ok EmptyString;
     sleep_outcome := λ _ _, Ok tt;
     str_of_exn := λ _, "error" |}.

End DeployMoreSpec.

(* ===================================================================== *)
(** * The chat-completion handler: properties *)
(* ===================================================================== *)
Module ServerProps.
Import Py Server ServerSpec.

Ltac run_handler :=
  unfold chat_completions, generation, try_except, emit, call, lift, raise;
  unfold mbind, M_bind, mret, M_ret.

(** ** Unloaded pipeline *)

(** C7. While [pipe] is [None], every request is answered by an
    [HTTPException] with status 503, raised before the [try] statement:
    nothing is logged and the pipeline is not called. *)
Theorem chat_completions_uninitialized_503 :
  ∀ (str_of_exn : exn → string) (request : gmap string pyval) (log : list event),
    let '(r, log') := chat_completions str_of_exn None request log in
    r = Raise (HTTPException 503 "Model not initialized")
    ∧ status_of r = 503
    ∧ log' = log.
Proof. intros. cbn. done. Qed.

(** ** Empty conversation *)

(** The [HTTPException] with status 400 is raised inside the [try]
    statement, and [HTTPException] is a subclass of [Exception]: the
    [except Exception] clause catches it and raises a 500 in its place. *)
Lemma empty_messages_caught (str_of_exn : exn → string) (p : pipeline)
    (request : gmap string pyval) (log : list event) :
  truthy (dict_get request "messages" (PList [])) = false →
  chat_completions str_of_exn (Some p) request log =
    (Raise (HTTPException 500 (str_of_exn (HTTPException 400 "No messages provided"))),
     EvLogError ("Generation error: "
                 +:+ str_of_exn (HTTPException 400 "No messages provided")) :: log).
Proof. intros Hm. run_handler. rewrite Hm. reflexivity. Qed.

(** C1, as the code behaves.  With a loaded pipeline, a request whose
    [messages] key is absent, or holds the empty list, is answered with
    status 500 and not 400; the pipeline is not called (neither the chat
    template nor the generation), only the error is logged. *)
Theorem chat_completions_empty_messages_status_500 :
  ∀ (str_of_exn : exn → string) (p : pipeline) (request : gmap string pyval)
    (log : list event) (body : gmap string pyval),
    body ∈ [delete "messages" request; <["messages" := PList []]> request] →
    let '(r, log') := chat_completions str_of_exn (Some p) body log in
    status_of r = 500
    ∧ status_of r ≠ 400
    ∧ r = Raise (HTTPException 500 (str_of_exn (HTTPException 400 "No messages provided")))
    ∧ generation_calls log' = generation_calls log
    ∧ ∃ msg, log' = EvLogError msg :: log.
Proof.
  intros str_of_exn p request log body Hbody.
  assert (Hm : truthy (dict_get body "messages" (PList [])) = false).
  { unfold dict_get.
    apply elem_of_cons in Hbody as [-> | Hbody];
      [| apply list_elem_of_singleton in Hbody as ->].
    - by rewrite lookup_delete_eq.
    - by rewrite lookup_insert_eq. }
  rewrite (empty_messages_caught _ _ _ _ Hm). cbn.
  repeat split; [lia | eauto].
Qed.

Lemma chat_completions_empty_messages_status_500_witness :
  status_of (fst (chat_completions sample_str (Some (echo_pipe "Hi")) ∅ [])) = 500.
Proof.
  pose proof (chat_completions_empty_messages_status_500
                sample_str (echo_pipe "Hi") ∅ [] ∅) as H.
  destruct (chat_completions sample_str (Some (echo_pipe "Hi")) ∅ []) as [r log'].
  apply H. rewrite delete_empty. apply elem_of_cons. by left.
Defined.

(** ** Successful requests *)

(** The outcome of a request for which the chat template and the
    generation both return, the first output holding the string [text]. *)
Lemma chat_completions_success (str_of_exn : exn → string) (p : pipeline)
    (request : gmap string pyval) (log : list event)
    (prompt text : string) (d : gmap string pyval) (rest : list pyval) :
  let messages := dict_get request "messages" (PList []) in
  let np := Z.of_nat (length (split prompt)) in
  let nc := Z.of_nat (length (split text)) in
  truthy messages = true →
  apply_chat_template p messages = Ok prompt →
  generate p prompt (generation_args p request) = Ok (PList (PDict d :: rest)) →
  d !! "generated_text" = Some (PStr text) →
  chat_completions str_of_exn (Some p) request log =
    (Ok (PDict
       {[ "choices" := PList [ PDict
            {[ "message" := PDict {[ "role" := PStr "assistant";
                                     "content" := PStr text ]};
               "finish_reason" := PStr "stop" ]} ];
          "usage" := PDict
            {[ "prompt_tokens" := PInt np;
               "completion_tokens" := PInt nc;
               "total_tokens" := PInt (np + nc) ]} ]}),
     EvGenerate prompt (generation_args p request) :: EvTemplate messages :: log).
Proof.
  intros messages np nc Hm Ht Hg Hd. run_handler.
  fold messages. rewrite Hm. cbn [negb]. rewrite Ht, Hg. cbn [subscript_0].
  unfold subscript_key. rewrite Hd. reflexivity.
Qed.

(** C8, as the code behaves.  When the pipeline is loaded, [messages] is
    not empty, and the generation returns the string [text] in its first
    output, the response has exactly one choice, with role [assistant],
    finish reason [stop] and [text] itself as content, and its usage counts
    satisfy [total_tokens = prompt_tokens + completion_tokens].  The content
    is what the pipeline produced: it is not empty when [text] is not. *)
Theorem chat_completions_success_shape :
  ∀ (str_of_exn : exn → string) (p : pipeline) (request : gmap string pyval)
    (log : list event) (prompt text : string) (d : gmap string pyval)
    (rest : list pyval),
    truthy (dict_get request "messages" (PList [])) = true →
    apply_chat_template p (dict_get request "messages" (PList [])) = Ok prompt →
    generate p prompt (generation_args p request) = Ok (PList (PDict d :: rest)) →
    d !! "generated_text" = Some (PStr text) →
    ∃ body choice prompt_tokens completion_tokens,
      fst (chat_completions str_of_exn (Some p) request log) = Ok body
      ∧ choices body = [choice]
      ∧ message_field choice "role" = Some (PStr "assistant")
      ∧ field choice "finish_reason" = Some (PStr "stop")
      ∧ message_field choice "content" = Some (PStr text)
      ∧ (text ≠ "" → message_field choice "content" ≠ Some (PStr ""))
      ∧ usage body "prompt_tokens" = Some (PInt prompt_tokens)
      ∧ usage body "completion_tokens" = Some (PInt completion_tokens)
      ∧ usage body "total_tokens" = Some (PInt (prompt_tokens + completion_tokens))
      ∧ prompt_tokens = Z.of_nat (length (split prompt))
      ∧ completion_tokens = Z.of_nat (length (split text)).
Proof.
  intros str_of_exn p request log prompt text d rest Hm Ht Hg Hd.
  rewrite (chat_completions_success str_of_exn p request log prompt text d rest Hm Ht Hg Hd).
  eexists _, _, _, _. cbn [fst].
  split; [reflexivity |].
  split; [reflexivity |].
  repeat split; try reflexivity.
  intros Hne Hc. apply Hne. change (message_field _ "content") with (Some (PStr text)) in Hc.
  congruence.
Qed.

Lemma chat_completions_success_shape_witness :
  ∃ body,
    fst (chat_completions sample_str (Some (echo_pipe "Hello,  how can I help?"))
           hello_request []) = Ok body
    ∧ usage body "prompt_tokens" = Some (PInt 3)
    ∧ usage body "completion_tokens" = Some (PInt 5)
    ∧ usage body "total_tokens" = Some (PInt 8).
Proof.
  destruct (chat_completions_success_shape sample_str
              (echo_pipe "Hello,  how can I help?") hello_request []
              "<|user|> hello <|assistant|>" "Hello,  how can I help?"
              {[ "generated_text" := PStr "Hello,  how can I help?" ]} [])
    as (body & choice & np & nc & Hb & _ & _ & _ & _ & _ & Hp & Hc & Ht & -> & ->);
    [reflexivity | reflexivity | reflexivity | reflexivity |].
  exists body. repeat split; assumption.
Defined.

(** C8, the claim as worded fails: a loaded pipeline whose generation
    returns the empty string for the one-message conversation yields a
    successful response whose single choice has empty content. *)
Lemma chat_completions_success_empty_content :
  ∃ body choice,
    truthy (dict_get hello_request "messages" (PList [])) = true
    ∧ fst (chat_completions sample_str (Some (echo_pipe "")) hello_request []) = Ok body
    ∧ choices body = [choice]
    ∧ message_field choice "content" = Some (PStr "").
Proof. eexists _, _. repeat split; vm_compute; reflexivity. Qed.

(** ** Generation parameters *)

(** C10. Whenever the handler reaches the generation call (pipeline
    loaded, [messages] not empty, chat template rendered), it calls the
    pipeline exactly once, with the rendered prompt and a dictionary in
    which each parameter the request omits has its default:
    [max_new_tokens] 1024 for [max_tokens], [temperature] 0.7, [top_p]
    0.9. *)
Theorem chat_completions_generation_defaults :
  ∀ (str_of_exn : exn → string) (p : pipeline) (request : gmap string pyval)
    (log : list event) (prompt : string),
    truthy (dict_get request "messages" (PList [])) = true →
    apply_chat_template p (dict_get request "messages" (PList [])) = Ok prompt →
    ∃ args,
      generation_calls (snd (chat_completions str_of_exn (Some p) request log))
        = EvGenerate prompt args :: generation_calls log
      ∧ (request !! "max_tokens" = None → args !! "max_new_tokens" = Some (PInt 1024))
      ∧ (request !! "temperature" = None → args !! "temperature" = Some (PFloat 0.7))
      ∧ (request !! "top_p" = None → args !! "top_p" = Some (PFloat 0.9)).
Proof.
  intros str_of_exn p request log prompt Hm Ht.
  exists (generation_args p request). split.
  - run_handler. rewrite Hm. cbn [negb]. rewrite Ht.
    destruct (generate p prompt (generation_args p request)) as [outputs | e].
    + destruct (subscript_0 outputs) as [first | e]; cbn.
      2: { destruct (is_Exception e); reflexivity. }
      destruct (subscript_key first "generated_text") as [text | e]; cbn.
      2: { destruct (is_Exception e); reflexivity. }
      destruct (len_split text) as [n | e]; cbn.
      2: { destruct (is_Exception e); reflexivity. }
      reflexivity.
    + destruct (is_Exception e); reflexivity.
  - unfold generation_args, dict_get.
    repeat split; intros ->; reflexivity.
Qed.

Lemma chat_completions_generation_defaults_witness :
  ∃ args,
    generation_calls
      (snd (chat_completions sample_str (Some (echo_pipe "Hi")) hello_request []))
      = [EvGenerate "<|user|> hello <|assistant|>" args]
    ∧ args !! "max_new_tokens" = Some (PInt 1024)
    ∧ args !! "temperature" = Some (PFloat 0.7)
    ∧ args !! "top_p" = Some (PFloat 0.9).
Proof.
  destruct (chat_completions_generation_defaults sample_str (echo_pipe "Hi")
              hello_request [] "<|user|> hello <|assistant|>")
    as (args & Hcalls & H1 & H2 & H3); [reflexivity | reflexivity |].
  exists args. repeat split; [exact Hcalls | apply H1 | apply H2 | apply H3];
    reflexivity.
Defined.

End ServerProps.

(* ===================================================================== *)
(** * The deployment script: properties *)
(* ===================================================================== *)
Module DeployProps.
Import Py Deploy DeploySpec.

(** ** Bookkeeping *)

Lemma add_events_app (a b : list event) (w : world) :
  add_events a (add_events b w) = add_events (a ++ b) w.
Proof. unfold add_events; cbn. by rewrite app_assoc. Qed.

Lemma provider_calls_app (a b : list event) :
  provider_calls (a ++ b) = provider_calls b ++ provider_calls a.
Proof. unfold provider_calls. by rewrite omap_app, rev_app_distr. Qed.

(** Sequencing, unfolded one statement at a time. *)
Lemma bind_ok {A B} (m : M world A) (k : A → M world B) (w w' : world) (a : A) :
  m w = (Ok a, w') → (m ≫= k) w = k a w'.
Proof. intros H. unfold mbind, M_bind. by rewrite H. Qed.

Lemma bind_raise {A B} (m : M world A) (k : A → M world B) (w w' : world) (e : exn) :
  m w = (Raise e, w') → (m ≫= k) w = (Raise e, w').
Proof. intros H. unfold mbind, M_bind. by rewrite H. Qed.

(** ** The command line *)

(** C9. With a first argument other than [status] and [clean], [main]
    prints the usage line and returns; that line is the only event, so no
    provider call, prompt, pause or file operation takes place. *)
Theorem main_unknown_command_prints_usage :
  ∀ (env : environment) (prog command : string) (rest : list string) (w : world),
    command ≠ "status" →
    command ≠ "clean" →
    ∃ w',
      main env (prog :: command :: rest) w = (Ok tt, w')
      ∧ events w' = EvPrint "Usage: python deploy-quick.py [status|clean]" :: events w
      ∧ provider_calls (events w') = provider_calls (events w)
      ∧ files w' = files w.
Proof.
  intros env prog command rest w Hs Hc.
  eexists. split.
  - unfold main. erewrite bind_ok by reflexivity.
    rewrite !bool_decide_eq_false_2 by assumption. reflexivity.
  - cbn. done.
Qed.

Lemma main_unknown_command_prints_usage_witness :
  provider_calls (events (snd (main (obliging says_no) ["deploy-quick.py"; "destroy"] start)))
  = [].
Proof.
  destruct (main_unknown_command_prints_usage (obliging says_no)
              "deploy-quick.py" "destroy" [] start)
    as (w' & Hrun & _ & Hcalls & _); [done | done |].
  rewrite Hrun. exact Hcalls.
Defined.

(** C3, as the code behaves.  [main] with the argument [clean] makes
    exactly one provider call, whatever the provider answers: the deletion
    of the instance [neural-symphony-gpu] in zone [us-east4-a].  The
    deployer is fresh and [check_gcloud] is not called on this path, so
    [project_id] is still [None] and the request carries [--project=None]. *)
Theorem main_clean_one_delete_project_None :
  ∀ (env : environment) (prog : string) (rest : list string) (w : world),
    ∃ evs,
      events (snd (main env (prog :: "clean" :: rest) w)) = evs ++ events w
      ∧ provider_calls evs =
          [["gcloud"; "compute"; "instances"; "delete"; "neural-symphony-gpu";
            "--zone=us-east4-a"; "--project=None"; "--quiet"]].
Proof.
  intros env prog rest w. unfold main.
  erewrite bind_ok by reflexivity.
  rewrite bool_decide_eq_false_2 by done. rewrite bool_decide_eq_true_2 by done.
  erewrite bind_ok by reflexivity. erewrite bind_ok by reflexivity.
  unfold mbind, M_bind, subprocess_run. cbn.
  destruct (run_outcome env _ _ _) as [cp | e]; cbn.
  - eexists [_; _; _]. split; reflexivity.
  - eexists [_; _]. split; reflexivity.
Qed.

(** ** The readiness poller *)

Section Poller.
Variable env : environment.
Variable s : Deployer.

(** Pauses are not interrupted. *)
Hypothesis sleep_returns : ∀ h, sleep_outcome env h 10 = Ok tt.

#[local] Abbreviation cmd := (ready_cmd s).

Lemma runs_of_app (a b : list event) :
  runs_of cmd (a ++ b) = (runs_of cmd a + runs_of cmd b)%nat.
Proof. unfold runs_of. by rewrite List.filter_app, length_app. Qed.

Lemma sleeps_app (a b : list event) : sleeps (a ++ b) = (sleeps a + sleeps b)%nat.
Proof. unfold sleeps. by rewrite List.filter_app, length_app. Qed.

Lemma runs_of_check (r : result CompletedProcess) :
  runs_of cmd [EvRun cmd ready_kw r] = 1%nat.
Proof.
  unfold runs_of. cbn. by rewrite bool_decide_eq_true_2.
Qed.

Lemma progress_quiet (attempt : nat) :
  runs_of cmd (progress attempt) = 0%nat
  ∧ sleeps (progress attempt) = 0%nat
  ∧ provider_calls (progress attempt) = [].
Proof. unfold progress. by destruct (_ =? _)%nat. Qed.

(** One iteration, by the outcome of its check. *)
Lemma poll_cons (attempt : nat) (rest : list nat) (w : world) :
  self w = s →
  poll env (attempt :: rest) w =
    let r := run_outcome env (events w) cmd ready_kw in
    let w1 := add_events [EvRun cmd ready_kw r] w in
    match r with
    | Ok cp =>
        if returncode cp =? 0
        then (Ok tt, add_events [completed] w1)
        else next_attempt env attempt (poll env rest) w1
    | Raise _ => next_attempt env attempt (poll env rest) w1
    end.
Proof.
  intros Hs. cbn [poll]. erewrite bind_ok by reflexivity. rewrite Hs.
  fold cmd. unfold outcome_of, subprocess_run, mbind, M_bind. cbv zeta.
  destruct (run_outcome env (events w) cmd ready_kw) as [cp | e];
    [cbn [check ready_kw andb]; destruct (returncode cp =? 0) |]; reflexivity.
Qed.

Lemma next_attempt_run (attempt : nat) (k : M world unit) (w : world) :
  next_attempt env attempt k w =
    k (add_events (EvSleep 10 (Ok tt) :: progress attempt) w).
Proof.
  unfold next_attempt, progress.
  destruct (_ =? _)%nat.
  - erewrite bind_ok by reflexivity.
    erewrite bind_ok.
    2:{ unfold sleep. rewrite sleep_returns. reflexivity. }
    by rewrite add_events_app.
  - erewrite bind_ok by reflexivity.
    erewrite bind_ok.
    2:{ unfold sleep. rewrite sleep_returns. reflexivity. }
    reflexivity.
Qed.

(** An attempt that fails is followed by its pause and the next
    iteration. *)
Lemma poll_cons_failed (attempt : nat) (rest : list nat) (w : world) :
  self w = s →
  poll_failed (run_outcome env (events w) cmd ready_kw) →
  ∃ r, poll_failed r ∧
    poll env (attempt :: rest) w =
      poll env rest
        (add_events (EvSleep 10 (Ok tt) :: progress attempt ++ [EvRun cmd ready_kw r]) w).
Proof.
  intros Hs Hf. rewrite (poll_cons _ _ _ Hs). cbv zeta.
  exists (run_outcome env (events w) cmd ready_kw). split; [done |].
  destruct (run_outcome env (events w) cmd ready_kw) as [cp | e].
  - cbn in Hf. rewrite (proj2 (Z.eqb_neq _ _) Hf).
    rewrite next_attempt_run. by rewrite add_events_app.
  - rewrite next_attempt_run. by rewrite add_events_app.
Qed.

(** Every attempt fails: the loop runs through all of them and ends in
    its [else] clause. *)
Lemma poll_never_ready (attempts : list nat) :
  (∀ h, poll_failed (run_outcome env h cmd ready_kw)) →
  ∀ w, self w = s →
    ∃ evs,
      poll env attempts w = (Ok tt, add_events (warning :: evs) w)
      ∧ provider_calls evs = replicate (length attempts) cmd
      ∧ sleeps evs = length attempts.
Proof.
  intros Hfail. induction attempts as [| attempt rest IH]; intros w Hs.
  - exists []. by cbn.
  - destruct (poll_cons_failed attempt rest w Hs (Hfail _)) as (r & _ & ->).
    destruct (IH (add_events (EvSleep 10 (Ok tt)
                              :: progress attempt ++ [EvRun cmd ready_kw r]) w) Hs)
      as (evs & -> & Hcalls & Hsl).
    exists (evs ++ EvSleep 10 (Ok tt) :: progress attempt ++ [EvRun cmd ready_kw r]).
    split; [by rewrite add_events_app |].
    destruct (progress_quiet attempt) as (_ & Hps & Hpc). split.
    + rewrite provider_calls_app, Hcalls.
      change (EvSleep 10 (Ok tt) :: progress attempt ++ [EvRun cmd ready_kw r])
        with ([EvSleep 10 (Ok tt)] ++ progress attempt ++ [EvRun cmd ready_kw r]).
      rewrite !provider_calls_app, Hpc. cbn. by rewrite replicate_cons_app.
    + change (EvSleep 10 (Ok tt) :: progress attempt ++ [EvRun cmd ready_kw r])
        with ([EvSleep 10 (Ok tt)] ++ progress attempt ++ [EvRun cmd ready_kw r]).
      rewrite !sleeps_app, Hsl, Hps. cbn. lia.
Qed.

(** The check fails [j] times and then succeeds: the loop stops there. *)
Lemma poll_ready_after (j : nat) :
  ∀ (attempts : list nat) (w : world),
    self w = s →
    (j < length attempts)%nat →
    (∀ h, (runs_of cmd h < runs_of cmd (events w) + j)%nat →
          poll_failed (run_outcome env h cmd ready_kw)) →
    (∀ h, runs_of cmd h = (runs_of cmd (events w) + j)%nat →
          poll_succeeded (run_outcome env h cmd ready_kw)) →
    ∃ evs cp,
      poll env attempts w =
        (Ok tt, add_events (completed :: EvRun cmd ready_kw (Ok cp) :: evs) w)
      ∧ returncode cp = 0
      ∧ provider_calls evs = replicate j cmd
      ∧ sleeps evs = j.
Proof.
  induction j as [| j IH]; intros attempts w Hs Hlen Hfail Hok.
  - destruct attempts as [| attempt rest]; [cbn in Hlen; lia |].
    rewrite (poll_cons _ _ _ Hs). cbv zeta.
    specialize (Hok (events w) (eq_sym (Nat.add_0_r _))).
    destruct (run_outcome env (events w) cmd ready_kw) as [cp | e]; [| done].
    cbn in Hok. rewrite Hok. cbn [Z.eqb].
    exists [], cp. by rewrite add_events_app.
  - destruct attempts as [| attempt rest]; [cbn in Hlen; lia |].
    destruct (poll_cons_failed attempt rest w Hs) as (r & _ & ->).
    { apply Hfail. lia. }
    set (step := EvSleep 10 (Ok tt) :: progress attempt ++ [EvRun cmd ready_kw r]).
    assert (Hstep : runs_of cmd (events (add_events step w))
                    = S (runs_of cmd (events w))).
    { cbn [events add_events]. unfold step.
      change (EvSleep 10 (Ok tt) :: progress attempt ++ [EvRun cmd ready_kw r])
        with ([EvSleep 10 (Ok tt)] ++ progress attempt ++ [EvRun cmd ready_kw r]).
      rewrite !runs_of_app, runs_of_check.
      destruct (progress_quiet attempt) as (-> & _ & _). cbn. lia. }
    destruct (IH rest (add_events step w) Hs) as (evs & cp & -> & Hcp & Hcalls & Hsl).
    + cbn in Hlen. lia.
    + intros h Hh. apply Hfail. lia.
    + intros h Hh. apply Hok. lia.
    + exists (evs ++ step), cp.
      split; [by rewrite add_events_app |].
      split; [done |].
      destruct (progress_quiet attempt) as (_ & Hps & Hpc). unfold step. split.
      * change (EvSleep 10 (Ok tt) :: progress attempt ++ [EvRun cmd ready_kw r])
          with ([EvSleep 10 (Ok tt)] ++ progress attempt ++ [EvRun cmd ready_kw r]).
        rewrite !provider_calls_app, Hcalls, Hpc. cbn. by rewrite replicate_cons_app.
      * change (EvSleep 10 (Ok tt) :: progress attempt ++ [EvRun cmd ready_kw r])
          with ([EvSleep 10 (Ok tt)] ++ progress attempt ++ [EvRun cmd ready_kw r]).
        rewrite !sleeps_app, Hsl, Hps. cbn. lia.
Qed.
End Poller.

Lemma wait_for_ready_run (env : environment) (w : world) :
  wait_for_ready env w = poll env (seq 0 max_attempts) (add_events announced w).
Proof. reflexivity. Qed.

(** C4. When no readiness check ever succeeds (each one exits with a
    non-zero status or raises) and the pauses return, [wait_for_ready]
    makes exactly 100 provider calls, all of them the readiness check,
    pauses after each, prints the warning last and returns without raising;
    whatever statement follows it then runs. *)
Theorem wait_for_ready_gives_up_after_100 :
  ∀ (env : environment) (w : world),
    (∀ h, poll_failed (run_outcome env h (ready_cmd (self w)) ready_kw)) →
    (∀ h, sleep_outcome env h 10 = Ok tt) →
    ∃ evs,
      wait_for_ready env w = (Ok tt, add_events (warning :: evs) w)
      ∧ provider_calls evs = replicate 100 (ready_cmd (self w))
      ∧ sleeps evs = 100%nat
      ∧ ∀ (B : Type) (k : unit → M world B),
          (wait_for_ready env ≫= k) w = k tt (add_events (warning :: evs) w).
Proof.
  intros env w Hfail Hsleep.
  destruct (poll_never_ready env (self w) Hsleep (seq 0 max_attempts) Hfail
              (add_events announced w) eq_refl)
    as (evs & Hrun & Hcalls & Hsl).
  rewrite length_seq in Hcalls, Hsl.
  rewrite add_events_app in Hrun. rewrite <- wait_for_ready_run in Hrun.
  exists (evs ++ announced).
  split; [exact Hrun |].
  split; [by rewrite provider_calls_app, Hcalls |].
  split; [by rewrite sleeps_app, Hsl |].
  intros B k. by apply bind_ok.
Qed.

Lemma wait_for_ready_gives_up_after_100_witness :
  ∃ evs,
    wait_for_ready never_ready configured = (Ok tt, add_events (warning :: evs) configured)
    ∧ length (provider_calls evs) = 100%nat.
Proof.
  destruct (wait_for_ready_gives_up_after_100 never_ready configured)
    as (evs & Hrun & Hcalls & _).
  - intros h. cbn. lia.
  - intros h. reflexivity.
  - exists evs. split; [exact Hrun |]. rewrite Hcalls. reflexivity.
Defined.

(** C5. When the readiness check first succeeds at the [k]-th attempt of
    this call ([1 ≤ k ≤ 100]; [k < 100] in particular) and the pauses return,
    [wait_for_ready] makes exactly [k] provider calls, all of them the
    readiness check, and [k - 1] pauses.  Its last two events are the
    successful check and the line [Setup completed!]: no check and no pause
    comes after the successful attempt. *)
Theorem wait_for_ready_stops_at_first_success :
  ∀ (env : environment) (w : world) (k : nat),
    let cmd := ready_cmd (self w) in
    let before := runs_of cmd (events w) in
    (1 ≤ k ≤ 100)%nat →
    (∀ h, (runs_of cmd h < before + (k - 1))%nat →
          poll_failed (run_outcome env h cmd ready_kw)) →
    (∀ h, runs_of cmd h = (before + (k - 1))%nat →
          poll_succeeded (run_outcome env h cmd ready_kw)) →
    (∀ h, sleep_outcome env h 10 = Ok tt) →
    ∃ evs cp,
      wait_for_ready env w =
        (Ok tt, add_events (completed :: EvRun cmd ready_kw (Ok cp) :: evs) w)
      ∧ returncode cp = 0
      ∧ provider_calls (completed :: EvRun cmd ready_kw (Ok cp) :: evs) = replicate k cmd
      ∧ sleeps (completed :: EvRun cmd ready_kw (Ok cp) :: evs) = (k - 1)%nat.
Proof.
  intros env w k cmd before Hk Hfail Hok Hsleep.
  destruct (poll_ready_after env (self w) Hsleep (k - 1) (seq 0 max_attempts)
              (add_events announced w) eq_refl)
    as (evs & cp & Hrun & Hcp & Hcalls & Hsl).
  - rewrite length_seq. unfold max_attempts. lia.
  - exact Hfail.
  - exact Hok.
  - rewrite add_events_app in Hrun. rewrite <- wait_for_ready_run in Hrun.
    fold cmd in Hrun, Hcalls.
    exists (evs ++ announced), cp.
    split; [exact Hrun |].
    split; [exact Hcp |].
    change (completed :: EvRun cmd ready_kw (Ok cp) :: evs ++ announced)
      with ([completed; EvRun cmd ready_kw (Ok cp)] ++ evs ++ announced).
    split.
    + rewrite !provider_calls_app, Hcalls. cbn.
      rewrite <- replicate_S_end. f_equal. lia.
    + rewrite !sleeps_app, Hsl. cbn. lia.
Qed.

Lemma wait_for_ready_stops_at_first_success_witness :
  ∃ evs,
    wait_for_ready ready_at_third configured = (Ok tt, add_events evs configured)
    ∧ length (provider_calls evs) = 3%nat
    ∧ sleeps evs = 2%nat.
Proof.
  destruct (wait_for_ready_stops_at_first_success ready_at_third configured 3)
    as (evs & cp & Hrun & _ & Hcalls & Hsl).
  - lia.
  - intros h Hh. cbn [ready_at_third run_outcome].
    destruct (Nat.ltb_spec (runs_of (ready_cmd (self configured)) h) 2);
      cbn in *; lia.
  - intros h Hh. cbn [ready_at_third run_outcome].
    destruct (Nat.ltb_spec (runs_of (ready_cmd (self configured)) h) 2);
      cbn in *; lia.
  - intros h. reflexivity.
  - eexists. split; [exact Hrun |]. rewrite Hcalls, Hsl. split; reflexivity.
Defined.

(** ** An existing instance *)

(** [setup_firewall] always returns, after one provider call: the bare
    [except] swallows whatever the call raises. *)
Lemma setup_firewall_run (env : environment) (w : world) :
  ∃ r,
    setup_firewall env w =
      (Ok tt, add_events [EvPrint "[SUCCESS] Firewall configured";
                          EvRun (firewall_cmd (self w))
                            {| capture_output := true; text := false; check := false;
                               timeout := None; shell := true |} r;
                          EvPrint "[INFO] Setting up firewall..."] w).
Proof.
  unfold setup_firewall.
  do 2 erewrite bind_ok by reflexivity.
  unfold try_except, subprocess_run, mbind, M_bind. cbn.
  destruct (run_outcome env _ _ _) as [cp | e]; eexists; reflexivity.
Qed.

(** C2, as the code behaves.  When the provider reports that the instance
    exists ([describe] exits with status 0) and the operator's reply,
    stripped and in lower case, is not [y], [create_instance] returns after
    that one provider call: it requests neither a deletion nor a creation.
    It returns normally, so the workflow does not stop there: the
    statement that follows runs, and in [deploy] that is [setup_firewall],
    which requests the creation of the firewall rule. *)
Theorem create_instance_declined_returns :
  ∀ (env : environment) (w : world) (cp : CompletedProcess) (line : string),
    (∀ h, run_outcome env h (describe_cmd (self w)) captured_text = Ok cp) →
    returncode cp = 0 →
    (∀ h, input_outcome env h "Delete and recreate? (y/N): " = Ok line) →
    lower (strip line) ≠ "y" →
    ∃ evs,
      create_instance env w = (Ok tt, add_events evs w)
      ∧ provider_calls evs = [describe_cmd (self w)]
      ∧ (∀ (B : Type) (k : unit → M world B),
           (create_instance env ≫= k) w = k tt (add_events evs w))
      ∧ ∃ evs',
          (create_instance env;; setup_firewall env) w
            = (Ok tt, add_events (evs' ++ evs) w)
          ∧ provider_calls (evs' ++ evs) = [describe_cmd (self w); firewall_cmd (self w)].
Proof.
  intros env w cp line Hdescribe Hcp Hinput Hno.
  set (evs := [EvInput "Delete and recreate? (y/N): " (Ok line);
               EvPrint "[WARNING] Instance already exists!";
               EvRun (describe_cmd (self w)) captured_text (Ok cp);
               EvPrint "[INFO] Creating GPU instance (this takes 2-3 minutes)..."]).
  assert (Hcheck : ∀ w1, self w1 = self w →
            check_existing env (self w) w1 =
              (Ok true, add_events
                          [EvInput "Delete and recreate? (y/N): " (Ok line);
                           EvPrint "[WARNING] Instance already exists!";
                           EvRun (describe_cmd (self w)) captured_text (Ok cp)] w1)).
  { intros w1 Hself. unfold check_existing, try_except.
    erewrite bind_ok.
    2:{ unfold subprocess_run. rewrite Hdescribe. reflexivity. }
    rewrite Hcp. cbn [Z.eqb].
    erewrite bind_ok by reflexivity.
    erewrite bind_ok.
    2:{ unfold input. rewrite Hinput. reflexivity. }
    rewrite bool_decide_eq_false_2 by exact Hno. reflexivity. }
  assert (Hrun : create_instance env w = (Ok tt, add_events evs w)).
  { unfold create_instance.
    do 2 erewrite bind_ok by reflexivity.
    erewrite bind_ok by (apply Hcheck; reflexivity).
    reflexivity. }
  exists evs. split; [exact Hrun |]. split; [reflexivity |].
  split; [intros B k; by apply bind_ok |].
  destruct (setup_firewall_run env (add_events evs w)) as (r & Hfw).
  eexists. split.
  - erewrite bind_ok by exact Hrun. rewrite Hfw, add_events_app. reflexivity.
  - reflexivity.
Qed.

Lemma create_instance_declined_returns_witness :
  ∃ evs,
    create_instance (obliging says_no) configured = (Ok tt, add_events evs configured)
    ∧ provider_calls evs = [describe_cmd (self configured)].
Proof.
  destruct (create_instance_declined_returns (obliging says_no) configured
              (exit_status 0 ("demo-project" +:+ nl)) "n")
    as (evs & Hrun & Hcalls & _).
  - intros h. reflexivity.
  - reflexivity.
  - intros h. reflexivity.
  - vm_compute. discriminate.
  - exists evs. split; assumption.
Defined.

(** C2, the claim as worded fails.  In a full run where the instance
    exists and the operator answers [n], the workflow does not abort after
    [create_instance]: the firewall rule is requested, the readiness check
    is run, and the address is queried for the report. *)
Lemma deploy_declined_still_touches_provider :
  fst (main (obliging says_no) ["deploy-quick.py"] start) = Ok tt
  ∧ EvInput "Delete and recreate? (y/N): " (Ok "n")
      ∈ events (snd (main (obliging says_no) ["deploy-quick.py"] start))
  ∧ provider_calls (events (snd (main (obliging says_no) ["deploy-quick.py"] start)))
    = [ ["gcloud"; "auth"; "list"];
        ["gcloud"; "config"; "get-value"; "project"];
        ["gcloud"; "services"; "enable"; "compute.googleapis.com"; "--project=demo-project"];
        ["gcloud"; "services"; "enable"; "storage.googleapis.com"; "--project=demo-project"];
        describe_cmd (self configured);
        firewall_cmd (self configured);
        ready_cmd (self configured);
        ["gcloud"; "compute"; "instances"; "describe"; "neural-symphony-gpu";
         "--zone=us-east4-a"; "--project=demo-project";
         "--format=value(networkInterfaces[0].accessConfigs[0].natIP)"] ].
Proof.
  split; [vm_compute; reflexivity |].
  split; [| vm_compute; reflexivity].
  apply list_elem_of_In. vm_compute. tauto.
Qed.

(** ** The start-up script file *)

Create HintDb frame.

Lemma keeps_files_ret {A} (a : A) : keeps_files (mret a : M world A).
Proof. by intros w. Qed.

Lemma keeps_files_bind {A B} (m : M world A) (k : A → M world B) :
  keeps_files m → (∀ a, keeps_files (k a)) → keeps_files (m ≫= k).
Proof.
  intros Hm Hk w. unfold mbind, M_bind.
  specialize (Hm w). destruct (m w) as [[a | e] w1]; cbn in *.
  - by rewrite Hk.
  - done.
Qed.

Lemma keeps_files_try_except {A} (body : M world A) (handler : exn → option (M world A)) :
  keeps_files body →
  (∀ e h, handler e = Some h → keeps_files h) →
  keeps_files (try_except body handler).
Proof.
  intros Hb Hh w. unfold try_except.
  specialize (Hb w). destruct (body w) as [[a | e] w1]; cbn in *; [done |].
  destruct (handler e) as [h |] eqn:He; [| done].
  by rewrite (Hh e h He).
Qed.

Lemma keeps_files_if {A} (b : bool) (m1 m2 : M world A) :
  keeps_files m1 → keeps_files m2 → keeps_files (if b then m1 else m2).
Proof. by destruct b. Qed.

Lemma keeps_files_print (env : environment) (line : string) : keeps_files (print line).
Proof. by intros w. Qed.

Lemma keeps_files_run (env : environment) (args : list string) (kw : run_kwargs) :
  keeps_files (subprocess_run env args kw).
Proof. by intros w. Qed.

Lemma keeps_files_input (env : environment) (prompt : string) :
  keeps_files (input env prompt).
Proof. by intros w. Qed.

Lemma keeps_files_set_project_id (p : string) : keeps_files (set_project_id p).
Proof. by intros w. Qed.

#[local] Hint Resolve keeps_files_ret keeps_files_print keeps_files_run
  keeps_files_input keeps_files_set_project_id : frame.

Lemma check_gcloud_keeps_files (env : environment) : keeps_files (check_gcloud env).
Proof.
  unfold check_gcloud, print_error, print_success.
  apply keeps_files_try_except.
  - repeat first
      [ apply keeps_files_bind; [| intros ?]
      | apply keeps_files_if
      | apply keeps_files_print; exact env
      | solve [auto with frame] ].
  - intros e h He. destruct e; try discriminate. injection He as <-.
    apply keeps_files_bind; [apply keeps_files_print; exact env | auto with frame].
Qed.

(** The [finally] clause leaves no start-up script behind. *)
Lemma deploy_finally_removes (w : world) :
  ∃ w', deploy_finally w = (Ok tt, w') ∧ files w' !! "startup-script.sh" = None.
Proof.
  unfold deploy_finally, path_exists, remove, mbind, M_bind.
  destruct (files w !! "startup-script.sh") as [content |] eqn:Hf.
  - rewrite bool_decide_eq_true_2 by eauto. rewrite Hf.
    eexists. split; [reflexivity |]. cbn. apply lookup_delete_eq.
  - rewrite bool_decide_eq_false_2 by (intros [? ?]; congruence).
    eexists. split; [reflexivity |]. exact Hf.
Qed.

Lemma try_finally_removes {A} (body : M world A) (w : world) :
  files (snd (try_finally body deploy_finally w)) !! "startup-script.sh" = None.
Proof.
  unfold try_finally. destruct (body w) as [r w1].
  destruct (deploy_finally_removes w1) as (w2 & -> & Hf). exact Hf.
Qed.

(** C6. However the [try] statement of [deploy] ends (its body returns,
    one of the two [except] clauses handles a [KeyboardInterrupt] or an
    [Exception], or another exception such as [SystemExit] passes
    through), the file [startup-script.sh] does not exist afterwards.  The
    script is only ever written inside that statement, so a run of [deploy]
    that starts without the file ends without it on every path, the early
    return after [check_gcloud] included. *)
Theorem deploy_removes_startup_script :
  ∀ (env : environment),
    (∀ w,
       files (snd (try_finally (try_except (deploy_try env) (deploy_except env))
                     deploy_finally w)) !! "startup-script.sh" = None)
    ∧ (∀ w,
         files w !! "startup-script.sh" = None →
         files (snd (deploy env w)) !! "startup-script.sh" = None).
Proof.
  intros env. split; [intros w; apply try_finally_removes |].
  intros w Hw. unfold deploy.
  do 2 erewrite bind_ok by reflexivity.
  set (w1 := add_events _ (add_events _ w)).
  pose proof (check_gcloud_keeps_files env w1) as Hkeep.
  destruct (check_gcloud env w1) as [[[|] | e] w2] eqn:Hcheck; cbn in Hkeep.
  - erewrite bind_ok by exact Hcheck. apply try_finally_removes.
  - erewrite bind_ok by exact Hcheck. cbn. by rewrite Hkeep.
  - erewrite bind_raise by exact Hcheck. cbn. by rewrite Hkeep.
Qed.

Lemma deploy_removes_startup_script_witness :
  files (snd (deploy (obliging says_no) start)) !! "startup-script.sh" = None.
Proof.
  apply (proj2 (deploy_removes_startup_script (obliging says_no)) start).
  reflexivity.
Defined.

(** Three runs in which the script is written and then removed: a
    deployment that completes, one whose instance creation is refused (the
    script exits through [sys.exit]), and one interrupted at the prompt for
    the repository. *)
Example deploy_completes :
  fst (deploy (obliging says_yes) start) = Ok true
  ∧ written_then_removed (snd (deploy (obliging says_yes) start))
  ∧ files (snd (deploy (obliging says_yes) start)) = ∅.
Proof.
  split; [vm_compute; reflexivity |].
  split; [| vm_compute; reflexivity].
  vm_compute. reflexivity.
Qed.

Example deploy_exits_on_refused_creation :
  fst (deploy out_of_quota start) = Raise (SystemExit 1)
  ∧ written_then_removed (snd (deploy out_of_quota start))
  ∧ files (snd (deploy out_of_quota start)) = ∅.
Proof.
  split; [vm_compute; reflexivity |].
  split; [| vm_compute; reflexivity].
  vm_compute. reflexivity.
Qed.

Example deploy_interrupted :
  fst (deploy (obliging interrupted_at_repo) start) = Ok false
  ∧ written_then_removed (snd (deploy (obliging interrupted_at_repo) start))
  ∧ hd_error (events (snd (deploy (obliging interrupted_at_repo) start)))
    = Some (EvRemove "startup-script.sh").
Proof.
  split; [vm_compute; reflexivity |].
  split; [| vm_compute; reflexivity].
  vm_compute. reflexivity.
Qed.

End DeployProps.

(* ===================================================================== *)
(** * The deployment script: further properties *)
(* ===================================================================== *)
Module DeployMore.
Import Py Deploy DeploySpec DeployMoreSpec DeployProps.

(** ** Text helpers as the script uses them *)







(** ** [check_gcloud] *)

Lemma try_except_ok {A} (body : M world A) (handler : exn → option (M world A))
    (w w' : world) (a : A) :
  body w = (Ok a, w') → try_except body handler w = (Ok a, w').
Proof. intros H. unfold try_except. by rewrite H. Qed.

Lemma try_except_caught {A} (body : M world A) (handler : exn → option (M world A))
    (w w' : world) (e : exn) (h : M world A) :
  body w = (Raise e, w') → handler e = Some h → try_except body handler w = h w'.
Proof. intros H He. unfold try_except. by rewrite H, He. Qed.

Lemma try_except_passed {A} (body : M world A) (handler : exn → option (M world A))
    (w w' : world) (e : exn) :
  body w = (Raise e, w') → handler e = None → try_except body handler w = (Raise e, w').
Proof. intros H He. unfold try_except. by rewrite H, He. Qed.

Ltac run_check_gcloud :=
  unfold check_gcloud, try_except, subprocess_run, input, set_project_id,
    print_error, print_success, print, record;
  unfold mbind, M_bind, mret, M_ret; cbn [check captured_text andb].



(** The two ways the first call reports that the tool cannot be used. *)
Lemma check_gcloud_not_authenticated (env : environment) (w : world) (cp : CompletedProcess) :
  run_outcome env (events w) ["gcloud"; "auth"; "list"] captured_text = Ok cp →
  returncode cp ≠ 0 →
  check_gcloud env w =
    (Ok false,
     add_events
       [EvPrint "Please install Google Cloud CLI: https://cloud.google.com/sdk/docs/install";
        EvPrint "[ERROR] gcloud is not installed or not authenticated";
        EvRun ["gcloud"; "auth"; "list"] captured_text (Ok cp)] w).
Proof.
  intros Hr Hrc. run_check_gcloud. rewrite Hr.
  by rewrite (proj2 (Z.eqb_neq _ _) Hrc).
Qed.

Lemma check_gcloud_tool_missing (env : environment) (w : world) :
  run_outcome env (events w) ["gcloud"; "auth"; "list"] captured_text
    = Raise FileNotFoundError →
  check_gcloud env w =
    (Ok false,
     add_events
       [EvPrint "[ERROR] gcloud command not found";
        EvRun ["gcloud"; "auth"; "list"] captured_text (Raise FileNotFoundError)] w).
Proof. intros Hr. run_check_gcloud. by rewrite Hr. Qed.

(** Closing a branch of [check_gcloud]: [H] relates the outcome of the
    branch to its new events, of which there are at most four. *)
Ltac settle_events :=
  [> reflexivity
   | discriminate
   | cbn; first [discriminate | intros _; repeat split; reflexivity] ].

Ltac settle_with H :=
  first [ eapply (H _ _ [_]); settle_events
        | eapply (H _ _ [_; _]); settle_events
        | eapply (H _ _ [_; _; _]); settle_events
        | eapply (H _ _ [_; _; _; _]); settle_events ].

(** X2. [check_gcloud] never lets a [FileNotFoundError] out, and whichever
    of its calls raised it (the authentication query, the project query or
    the prompt), it answers [False] instead: the last line printed is
    [gcloud command not found] and the deployer is as it was. *)
Theorem check_gcloud_FileNotFoundError_gives_False :
  ∀ (env : environment) (w : world),
    fst (check_gcloud env w) ≠ Raise FileNotFoundError
    ∧ ∃ evs,
        events (snd (check_gcloud env w)) = evs ++ events w
        ∧ (existsb raised_FileNotFoundError evs = true →
           fst (check_gcloud env w) = Ok false
           ∧ hd_error evs = Some (EvPrint "[ERROR] gcloud command not found")
           ∧ self (snd (check_gcloud env w)) = self w).
Proof.
  intros env w. run_check_gcloud.
  assert (Hclose : ∀ (r : result bool) (w' : world) (evs : list event),
            events w' = evs ++ events w →
            r ≠ Raise FileNotFoundError →
            (existsb raised_FileNotFoundError evs = true →
             r = Ok false
             ∧ hd_error evs = Some (EvPrint "[ERROR] gcloud command not found")
             ∧ self w' = self w) →
            fst (r, w') ≠ Raise FileNotFoundError
            ∧ ∃ evs,
                events (snd (r, w')) = evs ++ events w
                ∧ (existsb raised_FileNotFoundError evs = true →
                   fst (r, w') = Ok false
                   ∧ hd_error evs = Some (EvPrint "[ERROR] gcloud command not found")
                   ∧ self (snd (r, w')) = self w)).
  { intros r w' evs Hev Hr Hcase. split; [exact Hr |]. by exists evs. }
  destruct (run_outcome env (events w) _ _) as [cp1 | e1].
  2:{ destruct e1; settle_with Hclose. }
  destruct (returncode cp1 =? 0); cbn [negb].
  2:{ settle_with Hclose. }
  match goal with |- context [run_outcome env ?h ?a ?k] =>
    destruct (run_outcome env h a k) as [cp2 | e2] end.
  2:{ destruct e2; settle_with Hclose. }
  destruct ((returncode cp2 =? 0) && negb (bool_decide (strip (stdout cp2) = EmptyString))).
  { settle_with Hclose. }
  match goal with |- context [input_outcome env ?h ?a] =>
    destruct (input_outcome env h a) as [line | e3] end.
  2:{ destruct e3; settle_with Hclose. }
  destruct (bool_decide (strip line = EmptyString)).
  - settle_with Hclose.
  - settle_with Hclose.
Qed.

(** The tool disappears after the first call: the exception of the second
    call is answered with [False] as well. *)
Example check_gcloud_second_call_missing :
  fst (check_gcloud vanishing_tool start) = Ok false
  ∧ provider_calls (events (snd (check_gcloud vanishing_tool start)))
    = [["gcloud"; "auth"; "list"]; ["gcloud"; "config"; "get-value"; "project"]].
Proof. split; reflexivity. Qed.

(** X3. When [gcloud auth list] exits with a non-zero status, or cannot be
    started at all ([FileNotFoundError]), [deploy] returns [False] after
    that single provider call: no API is enabled, nothing is written, no
    instance is touched, and the deployer is as it was. *)
Theorem deploy_stops_without_tooling :
  ∀ (env : environment) (w : world) (r : result CompletedProcess),
    (∀ h, run_outcome env h ["gcloud"; "auth"; "list"] captured_text = r) →
    (r = Raise FileNotFoundError ∨ ∃ cp, r = Ok cp ∧ returncode cp ≠ 0) →
    ∃ evs,
      deploy env w = (Ok false, add_events evs w)
      ∧ provider_calls evs = [["gcloud"; "auth"; "list"]].
Proof.
  intros env w r Hr Hcase. unfold deploy.
  do 2 erewrite bind_ok by reflexivity.
  destruct Hcase as [-> | (cp & -> & Hrc)].
  - erewrite bind_ok by (apply check_gcloud_tool_missing, Hr).
    cbn [negb]. rewrite !add_events_app. eexists. split; reflexivity.
  - erewrite bind_ok by (eapply check_gcloud_not_authenticated; [apply Hr | exact Hrc]).
    cbn [negb]. rewrite !add_events_app. eexists. split; reflexivity.
Qed.

Lemma deploy_stops_without_tooling_witness :
  ∃ evs,
    deploy never_ready start = (Ok false, add_events evs start)
    ∧ provider_calls evs = [["gcloud"; "auth"; "list"]].
Proof.
  apply (deploy_stops_without_tooling never_ready start
           (Ok (exit_status 1 EmptyString))).
  - intros h. reflexivity.
  - right. eexists. split; [reflexivity |]. cbn. lia.
Defined.

(** X4. When no project is configured (the query exits with a non-zero
    status or prints only white space) and the operator's reply is blank,
    [check_gcloud] returns [False] after its two provider calls and leaves
    the deployer without a project. *)
Theorem check_gcloud_blank_reply :
  ∀ (env : environment) (w : world) (cp1 cp2 : CompletedProcess) (line : string),
    (∀ h, run_outcome env h ["gcloud"; "auth"; "list"] captured_text = Ok cp1) →
    returncode cp1 = 0 →
    (∀ h, run_outcome env h ["gcloud"; "config"; "get-value"; "project"] captured_text
          = Ok cp2) →
    (returncode cp2 ≠ 0 ∨ strip (stdout cp2) = EmptyString) →
    (∀ h, input_outcome env h "Enter your Google Cloud Project ID: " = Ok line) →
    strip line = EmptyString →
    ∃ evs,
      check_gcloud env w = (Ok false, add_events evs w)
      ∧ provider_calls evs =
          [["gcloud"; "auth"; "list"]; ["gcloud"; "config"; "get-value"; "project"]]
      ∧ hd_error evs = Some (EvPrint "[ERROR] Project ID is required").
Proof.
  intros env w cp1 cp2 line H1 Hrc1 H2 Hcase Hin Hblank.
  run_check_gcloud. rewrite H1, Hrc1. cbn [Z.eqb negb]. rewrite H2.
  assert ((returncode cp2 =? 0) && negb (bool_decide (strip (stdout cp2) = EmptyString))
          = false) as ->.
  { destruct Hcase as [Hrc | Hs].
    - by rewrite (proj2 (Z.eqb_neq _ _) Hrc).
    - rewrite (bool_decide_eq_true_2 _ Hs). apply andb_false_r. }
  rewrite Hin. rewrite (bool_decide_eq_true_2 _ Hblank).
  eexists [_; _; _; _]. split; [reflexivity |]. split; reflexivity.
Qed.

Lemma check_gcloud_blank_reply_witness :
  fst (check_gcloud unconfigured start) = Ok false.
Proof.
  destruct (check_gcloud_blank_reply unconfigured start
              (exit_status 0 nl) (exit_status 0 nl) "  ")
    as (evs & -> & _); try reflexivity.
  right. reflexivity.
Defined.

(** ** [enable_apis] *)

(** X5. When enabling the first API exits with a non-zero status,
    [enable_apis] raises [CalledProcessError] with that status and command
    ([check=True]); the second API is not attempted. *)
Theorem enable_apis_stops_at_first_failure :
  ∀ (env : environment) (w : world) (cp : CompletedProcess),
    (∀ h, run_outcome env h (enable_cmd (self w) "compute.googleapis.com") checked
          = Ok cp) →
    returncode cp ≠ 0 →
    ∃ evs,
      enable_apis env w =
        (Raise (CalledProcessError (returncode cp)
                  (enable_cmd (self w) "compute.googleapis.com")),
         add_events evs w)
      ∧ provider_calls evs = [enable_cmd (self w) "compute.googleapis.com"].
Proof.
  intros env w cp Hr Hrc. unfold enable_apis.
  do 2 erewrite bind_ok by reflexivity.
  erewrite bind_raise.
  2:{ cbn [for_each]. erewrite bind_raise; [reflexivity |].
      erewrite bind_raise; [reflexivity |].
      unfold subprocess_run. cbn [self add_events].
      unfold enable_cmd, checked in Hr. rewrite Hr. cbn [check andb].
      rewrite (proj2 (Z.eqb_neq _ _) Hrc). reflexivity. }
  rewrite add_events_app. eexists. split; reflexivity.
Qed.

Lemma enable_apis_stops_at_first_failure_witness :
  fst (enable_apis never_ready configured)
  = Raise (CalledProcessError 1
             ["gcloud"; "services"; "enable"; "compute.googleapis.com";
              "--project=demo-project"]).
Proof.
  destruct (enable_apis_stops_at_first_failure never_ready configured
              (exit_status 1 EmptyString))
    as (evs & -> & _); [intros h; reflexivity | cbn; lia | reflexivity].
Defined.

(** X6. When both APIs are enabled with status 0, [enable_apis] returns
    after exactly those two provider calls, compute first. *)
Theorem enable_apis_enables_both :
  ∀ (env : environment) (w : world) (cp1 cp2 : CompletedProcess),
    (∀ h, run_outcome env h (enable_cmd (self w) "compute.googleapis.com") checked
          = Ok cp1) →
    returncode cp1 = 0 →
    (∀ h, run_outcome env h (enable_cmd (self w) "storage.googleapis.com") checked
          = Ok cp2) →
    returncode cp2 = 0 →
    ∃ evs,
      enable_apis env w = (Ok tt, add_events evs w)
      ∧ provider_calls evs =
          [enable_cmd (self w) "compute.googleapis.com";
           enable_cmd (self w) "storage.googleapis.com"]
      ∧ hd_error evs = Some (EvPrint "[SUCCESS] APIs enabled").
Proof.
  intros env w cp1 cp2 H1 Hrc1 H2 Hrc2. unfold enable_apis.
  do 2 erewrite bind_ok by reflexivity.
  unfold enable_cmd, checked in H1, H2.
  erewrite bind_ok.
  2:{ cbn [for_each].
      erewrite bind_ok.
      2:{ erewrite bind_ok; [reflexivity |].
          unfold subprocess_run. cbn [self add_events].
          rewrite H1, Hrc1. reflexivity. }
      erewrite bind_ok.
      2:{ erewrite bind_ok; [reflexivity |].
          unfold subprocess_run. cbn [self add_events].
          rewrite H2, Hrc2. reflexivity. }
      reflexivity. }
  unfold print_success, print, record. rewrite !add_events_app.
  eexists. split; [reflexivity |]. split; reflexivity.
Qed.

Lemma enable_apis_enables_both_witness :
  fst (enable_apis (obliging says_no) configured) = Ok tt.
Proof.
  destruct (enable_apis_enables_both (obliging says_no) configured
              (exit_status 0 ("demo-project" +:+ nl)) (exit_status 0 ("demo-project" +:+ nl)))
    as (evs & -> & _); try reflexivity.
Defined.

(** ** The [try] statement of [deploy] *)

(** X7. The outcome of the [try] statement of [deploy], by what its body
    does: a returned value is returned; a [KeyboardInterrupt] or an
    [Exception] becomes the return value [False]; anything else
    ([SystemExit] from a refused creation) is raised again.  The statement
    itself never raises a [KeyboardInterrupt] or an [Exception]. *)
Theorem deploy_try_statement_outcome :
  ∀ (env : environment) (w : world),
    let statement := try_finally (try_except (deploy_try env) (deploy_except env))
                       deploy_finally in
    match fst (deploy_try env w) with
    | Ok b => fst (statement w) = Ok b
    | Raise e =>
        if handled e then fst (statement w) = Ok false
        else fst (statement w) = Raise e
    end
    ∧ ∀ e, fst (statement w) = Raise e → handled e = false.
Proof.
  intros env w statement.
  assert (Hfinal : ∀ (r : result bool) w1,
            fst (let '(r0, s') := (r, w1) in
                 match deploy_finally s' with
                 | (Ok _, s'') => (r0, s'')
                 | (Raise e, s'') => (Raise e, s'')
                 end) = r).
  { intros r w1. destruct (deploy_finally_removes w1) as (w2 & -> & _). reflexivity. }
  assert (Hcases :
    match fst (deploy_try env w) with
    | Ok b => fst (statement w) = Ok b
    | Raise e =>
        if handled e then fst (statement w) = Ok false
        else fst (statement w) = Raise e
    end).
  { unfold statement, try_finally, try_except.
    destruct (deploy_try env w) as [[b | e] w1]; cbn [fst].
    - apply Hfinal.
    - destruct e; cbn [handled is_Exception deploy_except]; apply Hfinal. }
  split; [exact Hcases |].
  intros e He. destruct (fst (deploy_try env w)) as [b | e'].
  - congruence.
  - destruct (handled e') eqn:Hh; congruence.
Qed.

(** ** [create_instance] *)

(** X8. The reply to the question about recreating the instance counts as
    yes exactly when, stripped of surrounding white space, it is the letter
    [y] in either case. *)
Theorem recreate_reply_is_y :
  ∀ (line : string),
    lower (strip line) = "y" ↔ strip line = "y" ∨ strip line = "Y".
Proof.
  intros line. generalize (strip line). clear line. intros s. split.
  - destruct s as [| c [| d t]]; [discriminate | | discriminate].
    destruct c as [[] [] [] [] [] [] [] []]; vm_compute; intros H;
      first [discriminate | by left | by right].
  - by intros [-> | ->].
Qed.

Lemma self_add_events (evs : list event) (w : world) : self (add_events evs w) = self w.
Proof. reflexivity. Qed.

Ltac run_create_instance :=
  unfold create_instance, check_existing, try_except, subprocess_run, input,
    get_self, sys_exit, raise, print_status, print_warning, print_error,
    print_success, print, record;
  unfold mbind, M_bind, mret, M_ret;
  cbn [check captured_text plain andb];
  rewrite ?self_add_events.

Ltac collect_events :=
  rewrite ?add_events_app; eexists;
  (split; [reflexivity | try reflexivity]).

(** X9. When the instance exists and the operator asks for it to be
    recreated, [create_instance] requests the deletion and then the
    creation, whatever the deletion answers (a failed or even an
    interrupted deletion does not stop the creation request). *)
Theorem create_instance_recreates_on_yes :
  ∀ (env : environment) (w : world) (cp : CompletedProcess) (line : string),
    (∀ h, run_outcome env h (describe_cmd (self w)) captured_text = Ok cp) →
    returncode cp = 0 →
    (∀ h, input_outcome env h "Delete and recreate? (y/N): " = Ok line) →
    lower (strip line) = "y" →
    ∃ evs,
      snd (create_instance env w) = add_events evs w
      ∧ provider_calls evs =
          [describe_cmd (self w); delete_cmd (self w); create_cmd (self w)].
Proof.
  intros env w cp line Hd Hrc Hin Hy. run_create_instance.
  rewrite Hd, Hrc. cbn [Z.eqb]. rewrite Hin, Hy.
  rewrite bool_decide_eq_true_2 by done.
  match goal with |- context [run_outcome env ?h (delete_cmd (self w)) ?k] =>
    destruct (run_outcome env h (delete_cmd (self w)) k) as [cpd | ed] end;
  rewrite ?self_add_events;
  (match goal with |- context [run_outcome env ?h (create_cmd (self w)) ?k] =>
     destruct (run_outcome env h (create_cmd (self w)) k) as [cpc | ec] end;
   [ destruct (returncode cpc =? 0); cbn [negb];
     [| destruct (contains "quota" (lower (stderr cpc)))] | ];
   cbn [snd]; collect_events).
Qed.

Lemma create_instance_recreates_on_yes_witness :
  ∃ evs,
    snd (create_instance (obliging says_yes) configured) = add_events evs configured
    ∧ length (provider_calls evs) = 3%nat.
Proof.
  destruct (create_instance_recreates_on_yes (obliging says_yes) configured
              (exit_status 0 ("demo-project" +:+ nl)) "y")
    as (evs & Hev & Hcalls); try reflexivity.
  exists evs. split; [exact Hev |]. rewrite Hcalls. reflexivity.
Defined.

(** X10. When the instance does not exist ([describe] exits with a non-zero
    status) and the creation request exits with a non-zero status,
    [create_instance] leaves through [sys.exit(1)] after those two provider
    calls; the last line it prints is the link of the quota hint when the
    error text contains [quota] in any letter case, and the error line
    itself otherwise. *)
Theorem create_instance_exits_when_creation_fails :
  ∀ (env : environment) (w : world) (cpd cpc : CompletedProcess),
    (∀ h, run_outcome env h (describe_cmd (self w)) captured_text = Ok cpd) →
    returncode cpd ≠ 0 →
    (∀ h, run_outcome env h (create_cmd (self w)) captured_text = Ok cpc) →
    returncode cpc ≠ 0 →
    ∃ evs,
      create_instance env w = (Raise (SystemExit 1), add_events evs w)
      ∧ provider_calls evs = [describe_cmd (self w); create_cmd (self w)]
      ∧ hd_error evs =
          Some (if contains "quota" (lower (stderr cpc))
                then EvPrint "https://console.cloud.google.com/iam-admin/quotas"
                else EvPrint ("[ERROR] Failed to create instance: " +:+ stderr cpc)).
Proof.
  intros env w cpd cpc Hd Hrcd Hc Hrcc. run_create_instance.
  rewrite Hd, (proj2 (Z.eqb_neq _ _) Hrcd). rewrite ?self_add_events.
  rewrite Hc, (proj2 (Z.eqb_neq _ _) Hrcc). cbn [negb].
  destruct (contains "quota" (lower (stderr cpc))) eqn:Hq;
    rewrite ?add_events_app; eexists;
    (split; [reflexivity | split; reflexivity]).
Qed.

Lemma create_instance_exits_when_creation_fails_witness :
  fst (create_instance out_of_quota configured) = Raise (SystemExit 1).
Proof.
  destruct (create_instance_exits_when_creation_fails out_of_quota configured
              (exit_status 1 EmptyString)
              {| returncode := 1; stdout := EmptyString;
                 stderr := "Quota 'GPUS_ALL_REGIONS' exceeded." |})
    as (evs & -> & _); try reflexivity; cbn; lia.
Defined.

(** X11. The check for an existing instance cannot stop the creation: when
    [describe] raises any exception, a [KeyboardInterrupt] included, the
    bare [except] swallows it and the creation request is still made. *)
Theorem create_instance_ignores_failed_check :
  ∀ (env : environment) (w : world) (e : exn),
    (∀ h, run_outcome env h (describe_cmd (self w)) captured_text = Raise e) →
    ∃ evs,
      snd (create_instance env w) = add_events evs w
      ∧ provider_calls evs = [describe_cmd (self w); create_cmd (self w)].
Proof.
  intros env w e Hd. run_create_instance. rewrite Hd. rewrite ?self_add_events.
  match goal with |- context [run_outcome env ?h (create_cmd (self w)) ?k] =>
    destruct (run_outcome env h (create_cmd (self w)) k) as [cpc | ec] end;
  [ destruct (returncode cpc =? 0); cbn [negb];
    [| destruct (contains "quota" (lower (stderr cpc)))] | ];
  cbn [snd]; collect_events.
Qed.

Lemma create_instance_ignores_failed_check_witness :
  ∃ evs,
    snd (create_instance interrupted_describe configured) = add_events evs configured
    ∧ length (provider_calls evs) = 2%nat.
Proof.
  destruct (create_instance_ignores_failed_check interrupted_describe configured
              KeyboardInterrupt)
    as (evs & Hev & Hcalls); [intros h; reflexivity |].
  exists evs. split; [exact Hev |]. rewrite Hcalls. reflexivity.
Defined.

(** ** [setup_firewall] *)

(** X12. [setup_firewall] never raises and never fails: whatever its one
    provider call does (exit status, exception), it returns and reports the
    firewall as configured. *)
Theorem setup_firewall_always_returns :
  ∀ (env : environment) (w : world),
    ∃ evs,
      setup_firewall env w = (Ok tt, add_events evs w)
      ∧ provider_calls evs = [firewall_cmd (self w)]
      ∧ hd_error evs = Some (EvPrint "[SUCCESS] Firewall configured").
Proof.
  intros env w. destruct (setup_firewall_run env w) as (r & ->).
  eexists. split; [reflexivity |]. split; reflexivity.
Qed.

(** ** [wait_for_ready] *)

(** X13. An exception during a pause is not swallowed: when the first check
    fails and [time.sleep] raises [e] (an interrupt, say), [wait_for_ready]
    raises [e] after that single check. *)
Theorem wait_for_ready_interrupted_pause :
  ∀ (env : environment) (w : world) (e : exn),
    (∀ h, poll_failed (run_outcome env h (ready_cmd (self w)) ready_kw)) →
    (∀ h, sleep_outcome env h 10 = Raise e) →
    ∃ evs,
      wait_for_ready env w = (Raise e, add_events evs w)
      ∧ provider_calls evs = [ready_cmd (self w)]
      ∧ hd_error evs = Some (EvSleep 10 (Raise e)).
Proof.
  intros env w e Hfail Hsleep.
  rewrite wait_for_ready_run. unfold max_attempts. cbn [seq].
  rewrite (poll_cons env (self w)) by reflexivity. cbv zeta.
  specialize (Hfail (events (add_events announced w))).
  assert (Hnext : ∀ r w1,
            next_attempt env 0 (poll env (seq 1 99)) (add_events [r] w1)
            = (Raise e, add_events [EvSleep 10 (Raise e);
                                    EvPrint "[INFO] Still setting up... (0/15 minutes)"; r]
                          w1)).
  { intros r w1. unfold next_attempt. cbn [Nat.modulo Nat.divmod fst snd Nat.eqb Nat.sub].
    erewrite bind_ok by reflexivity.
    erewrite bind_raise.
    2:{ unfold sleep. rewrite Hsleep. reflexivity. }
    by rewrite !add_events_app. }
  destruct (run_outcome env _ (ready_cmd (self w)) ready_kw) as [cp | e'].
  - cbn in Hfail. rewrite (proj2 (Z.eqb_neq _ _) Hfail).
    rewrite Hnext, add_events_app. eexists. split; [reflexivity |]. split; reflexivity.
  - rewrite Hnext, add_events_app. eexists. split; [reflexivity |]. split; reflexivity.
Qed.

Lemma wait_for_ready_interrupted_pause_witness :
  fst (wait_for_ready interrupted_pause configured) = Raise KeyboardInterrupt.
Proof.
  destruct (wait_for_ready_interrupted_pause interrupted_pause configured
              KeyboardInterrupt)
    as (evs & -> & _); [intros h; cbn; lia | intros h; reflexivity | reflexivity].
Defined.

Lemma printed_app (a b : list event) : printed (a ++ b) = printed b ++ printed a.
Proof. unfold printed. by rewrite omap_app, rev_app_distr. Qed.

Lemma poll_never_ready_prints (env : environment) (s : Deployer) (attempts : list nat) :
  (∀ h, sleep_outcome env h 10 = Ok tt) →
  (∀ h, poll_failed (run_outcome env h (ready_cmd s) ready_kw)) →
  ∀ w, self w = s →
    ∃ evs,
      poll env attempts w = (Ok tt, add_events evs w)
      ∧ printed evs = progress_lines attempts
                      ++ ["[WARNING] Setup may still be in progress. Check manually."].
Proof.
  intros Hsleep Hfail. induction attempts as [| attempt rest IH]; intros w Hs.
  - exists [warning]. split; reflexivity.
  - destruct (poll_cons_failed env s Hsleep attempt rest w Hs (Hfail _)) as (r & _ & ->).
    destruct (IH (add_events (EvSleep 10 (Ok tt)
                              :: progress attempt ++ [EvRun (ready_cmd s) ready_kw r]) w) Hs)
      as (evs & -> & Hp).
    eexists. split; [by rewrite add_events_app |].
    change (EvSleep 10 (Ok tt) :: progress attempt ++ [EvRun (ready_cmd s) ready_kw r])
      with ([EvSleep 10 (Ok tt)] ++ progress attempt ++ [EvRun (ready_cmd s) ready_kw r]).
    rewrite !printed_app, Hp. cbn [progress_lines flat_map].
    change (printed [EvRun (ready_cmd s) ready_kw r]) with (@nil string).
    change (printed [EvSleep 10 (Ok tt)]) with (@nil string).
    rewrite app_nil_l, app_nil_r. by rewrite app_assoc.
Qed.

(** X14. When no readiness check ever succeeds, [wait_for_ready] prints its
    two opening lines, then a progress line on every sixth attempt (17 of
    them, counting minutes from 0 up to 16 out of 15), then the warning. *)
Theorem wait_for_ready_progress_report :
  ∀ (env : environment) (w : world),
    (∀ h, poll_failed (run_outcome env h (ready_cmd (self w)) ready_kw)) →
    (∀ h, sleep_outcome env h 10 = Ok tt) →
    printed (events (snd (wait_for_ready env w))) =
      printed (events w)
      ++ ["[INFO] Waiting for setup to complete...";
          "[INFO] This will take 10-15 minutes (downloading 40GB model)..."]
      ++ map (λ minute, "[INFO] Still setting up... (" +:+ pretty minute +:+ "/15 minutes)")
           (seq 0 17)
      ++ ["[WARNING] Setup may still be in progress. Check manually."].
Proof.
  intros env w Hfail Hsleep. rewrite wait_for_ready_run.
  destruct (poll_never_ready_prints env (self w) (seq 0 max_attempts) Hsleep Hfail
              (add_events announced w) eq_refl) as (evs & -> & Hp).
  cbn [snd]. rewrite add_events_app. cbn [events add_events].
  rewrite !printed_app, Hp. reflexivity.
Qed.

Lemma wait_for_ready_progress_report_witness :
  length (printed (events (snd (wait_for_ready never_ready configured)))) = 20%nat.
Proof.
  rewrite (wait_for_ready_progress_report never_ready configured).
  - reflexivity.
  - intros h. cbn. lia.
  - intros h. reflexivity.
Defined.

(** ** [main] with [status] *)

(** X15. [main] with the argument [status] makes exactly one provider call,
    the address query, for a fresh deployer (so with [--project=None]).  It
    does not look at the exit status: whenever the call returns, the line
    printed is [Neural Symphony: http://] followed by the stripped output,
    be it empty. *)
Theorem main_status_prints_address :
  ∀ (env : environment) (prog : string) (rest : list string) (w : world),
    ∃ evs,
      snd (main env (prog :: "status" :: rest) w)
        = add_events evs {| self := NeuralSymphonyDeployer;
                            files := files w; events := events w |}
      ∧ provider_calls evs = [address_cmd NeuralSymphonyDeployer]
      ∧ ∀ cp, run_outcome env (events w) (address_cmd NeuralSymphonyDeployer) captured_text
              = Ok cp →
          fst (main env (prog :: "status" :: rest) w) = Ok tt
          ∧ hd_error evs = Some (EvPrint ("Neural Symphony: http://" +:+ strip (stdout cp))).
Proof.
  intros env prog rest w. unfold main.
  erewrite bind_ok by reflexivity.
  rewrite bool_decide_eq_true_2 by done.
  unfold get_instance_ip, get_self, subprocess_run, print, record.
  unfold mbind, M_bind, mret, M_ret. cbn [check captured_text andb self events].
  fold (address_cmd NeuralSymphonyDeployer).
  destruct (run_outcome env (events w) (address_cmd NeuralSymphonyDeployer) captured_text)
    as [cp | e] eqn:Hr.
  - rewrite add_events_app. eexists. split; [reflexivity |]. split; [reflexivity |].
    intros cp' [= <-]. split; reflexivity.
  - eexists. split; [reflexivity |]. split; [reflexivity |]. intros cp' [=].
Qed.

End DeployMore.

(* ===================================================================== *)
(** * The chat-completion server: further properties *)
(* ===================================================================== *)
Module ServerMore.
Import Py Server ServerSpec ServerStart ServerMoreSpec.

Ltac run_handler :=
  unfold chat_completions, generation, try_except, emit, call, lift, raise;
  unfold mbind, M_bind, mret, M_ret.

(** ** The handler with a loaded pipeline *)

(** With a loaded pipeline only two statuses are possible. *)
Lemma chat_completions_loaded_spec (str_of_exn : exn → string) (p : pipeline)
    (request : gmap string pyval) (log : list event) :
  let r := fst (chat_completions str_of_exn (Some p) request log) in
  (status_of r = 200 ∨ status_of r = 500)
  ∧ ∀ e, r = Raise e → is_Exception e = true → ∃ detail, e = HTTPException 500 detail.
Proof.
  cbv zeta. unfold chat_completions, try_except.
  destruct (generation p request log) as [[body | e] log'].
  - split; [by left | intros e [=]].
  - destruct (is_Exception e) eqn:He.
    + unfold mbind, M_bind, emit, raise. cbn.
      split; [by right |]. intros e' [= <-] _. eauto.
    + cbn. split; [destruct e; try discriminate He; by right |].
      intros e' [= <-] He'. congruence.
Qed.

(** X16. With a loaded pipeline the handler answers 200 or 500 and nothing
    else: every [Exception] raised inside the [try] statement, its own 400
    included, leaves it as an [HTTPException] with status 500. *)
Theorem chat_completions_loaded_200_or_500 :
  ∀ (str_of_exn : exn → string) (p : pipeline) (request : gmap string pyval)
    (log : list event),
    let r := fst (chat_completions str_of_exn (Some p) request log) in
    (status_of r = 200 ∨ status_of r = 500)
    ∧ ∀ e, r = Raise e → is_Exception e = true → ∃ detail, e = HTTPException 500 detail.
Proof. intros. apply chat_completions_loaded_spec. Qed.

(** X17. When the chat template raises an [Exception], the response is a
    500 whose detail is the text of that exception; the generation is not
    called. *)
Theorem chat_completions_template_failure :
  ∀ (str_of_exn : exn → string) (p : pipeline) (request : gmap string pyval)
    (log : list event) (e : exn),
    truthy (dict_get request "messages" (PList [])) = true →
    apply_chat_template p (dict_get request "messages" (PList [])) = Raise e →
    is_Exception e = true →
    chat_completions str_of_exn (Some p) request log =
      (Raise (HTTPException 500 (str_of_exn e)),
       [EvLogError ("Generation error: " +:+ str_of_exn e);
        EvTemplate (dict_get request "messages" (PList []))] ++ log).
Proof.
  intros str_of_exn p request log e Hm Ht He. run_handler.
  rewrite Hm. cbn [negb]. rewrite Ht, He. reflexivity.
Qed.

Lemma chat_completions_template_failure_witness :
  status_of (fst (chat_completions sample_str (Some no_template) hello_request [])) = 500.
Proof.
  rewrite (chat_completions_template_failure sample_str no_template hello_request []
             (OtherException "ValueError" "no chat template"));
    reflexivity.
Defined.

(** X18. When the generation raises [e]: an [Exception] is logged and
    answered with a 500 carrying its text; anything else (an interrupt, a
    [SystemExit]) leaves the handler as it is, with nothing logged. *)
Theorem chat_completions_generation_failure :
  ∀ (str_of_exn : exn → string) (p : pipeline) (request : gmap string pyval)
    (log : list event) (prompt : string) (e : exn),
    let messages := dict_get request "messages" (PList []) in
    let called := [EvGenerate prompt (generation_args p request); EvTemplate messages] in
    truthy messages = true →
    apply_chat_template p messages = Ok prompt →
    generate p prompt (generation_args p request) = Raise e →
    chat_completions str_of_exn (Some p) request log =
      if is_Exception e
      then (Raise (HTTPException 500 (str_of_exn e)),
            EvLogError ("Generation error: " +:+ str_of_exn e) :: called ++ log)
      else (Raise e, called ++ log).
Proof.
  intros str_of_exn p request log prompt e messages called Hm Ht Hg. run_handler.
  fold messages. rewrite Hm. cbn [negb]. rewrite Ht, Hg.
  destruct (is_Exception e); reflexivity.
Qed.

Lemma chat_completions_generation_failure_witness :
  status_of (fst (chat_completions sample_str (Some out_of_memory) hello_request [])) = 500.
Proof.
  rewrite (chat_completions_generation_failure sample_str out_of_memory hello_request []
             "<|user|> hello <|assistant|>"
             (OtherException "OutOfMemoryError" "CUDA out of memory"));
    reflexivity.
Defined.

(** X19. Once the prompt is rendered and the generation has returned, the
    request succeeds exactly when the output is readable; an empty list, a
    first element without the key, or a text that is not a string all give
    a 500. *)
Theorem chat_completions_succeeds_iff_readable :
  ∀ (str_of_exn : exn → string) (p : pipeline) (request : gmap string pyval)
    (log : list event) (prompt : string) (outputs : pyval),
    truthy (dict_get request "messages" (PList [])) = true →
    apply_chat_template p (dict_get request "messages" (PList [])) = Ok prompt →
    generate p prompt (generation_args p request) = Ok outputs →
    let r := fst (chat_completions str_of_exn (Some p) request log) in
    (status_of r = 200 ↔ readable outputs)
    ∧ (¬ readable outputs → status_of r = 500).
Proof.
  intros str_of_exn p request log prompt outputs Hm Ht Hg. cbv zeta.
  assert (Hdec : readable outputs ∨
                 (¬ readable outputs ∧
                  status_of (fst (chat_completions str_of_exn (Some p) request log)) = 500)).
  { run_handler. rewrite Hm. cbn [negb]. rewrite Ht, Hg.
    destruct outputs as [| b | z | f | s | l | d];
      try (right; split; [intros (? & ? & ? & [=] & _) | reflexivity]).
    - destruct s; right; (split; [intros (? & ? & ? & [=] & _) | reflexivity]).
    - destruct l as [| first rest];
        [right; split; [intros (? & ? & ? & [=] & _) | reflexivity] |].
      destruct first as [| b | z | f | s | l' | d];
        try (right; split; [intros (? & ? & ? & [=] & _) | reflexivity]).
      cbn [subscript_0 subscript_key].
      destruct (d !! "generated_text") as [text |] eqn:Hd;
        [| right; split; [intros (? & ? & ? & [= <- <-] & Hd'); congruence | reflexivity]].
      destruct text as [| b | z | f | s | l' | d'];
        try (right; split;
             [intros (? & ? & ? & [= <- <-] & Hd'); congruence | reflexivity]).
      left. by exists d, rest, s. }
  destruct Hdec as [Hr | [Hn H500]].
  - split; [| by intros Hn].
    split; [by intros _ |]. intros _.
    destruct Hr as (d & rest & text & -> & Hd).
    by rewrite (ServerProps.chat_completions_success str_of_exn p request log prompt text d rest
                  Hm Ht Hg Hd).
  - split; [| by intros _]. rewrite H500. split; [discriminate | done].
Qed.

Lemma chat_completions_succeeds_iff_readable_witness :
  status_of (fst (chat_completions sample_str (Some no_output) hello_request [])) = 500.
Proof.
  apply (chat_completions_succeeds_iff_readable sample_str no_output hello_request []
           "<|user|> hello <|assistant|>" (PList []));
    try reflexivity.
  intros (d & rest & text & [=] & _).
Defined.

(** ** Generation parameters *)

(** X20. A parameter the request carries is handed to the pipeline as it
    is, whatever its value: there is no validation, and a JSON [null] is
    passed as [None], not replaced by the default. *)
Theorem generation_args_forward_request :
  ∀ (p : pipeline) (request : gmap string pyval) (v : pyval),
    (request !! "max_tokens" = Some v →
       generation_args p request !! "max_new_tokens" = Some v)
    ∧ (request !! "temperature" = Some v →
       generation_args p request !! "temperature" = Some v)
    ∧ (request !! "top_p" = Some v →
       generation_args p request !! "top_p" = Some v).
Proof.
  intros p request v. unfold generation_args, dict_get.
  repeat split; intros ->; reflexivity.
Qed.

Lemma generation_args_forward_request_witness :
  generation_args (echo_pipe "Hi") {[ "max_tokens" := PNone ]} !! "max_new_tokens"
  = Some PNone.
Proof.
  apply (generation_args_forward_request (echo_pipe "Hi") {[ "max_tokens" := PNone ]} PNone).
  reflexivity.
Defined.

(** X21. The request cannot reach the other generation settings: whatever
    it holds, the dictionary has exactly six keys, sampling is on, the
    prompt is not echoed, and padding uses the tokenizer's end-of-sequence
    token. *)
Theorem generation_args_fixed_settings :
  ∀ (p : pipeline) (request : gmap string pyval),
    dom (generation_args p request) =
      ({[ "max_new_tokens"; "temperature"; "top_p"; "do_sample";
          "pad_token_id"; "return_full_text" ]} : gset string)
    ∧ generation_args p request !! "do_sample" = Some (PBool true)
    ∧ generation_args p request !! "return_full_text" = Some (PBool false)
    ∧ generation_args p request !! "pad_token_id" = Some (eos_token_id p).
Proof.
  intros p request. unfold generation_args. split.
  - rewrite !dom_insert_L, dom_singleton_L. set_solver.
  - repeat split; reflexivity.
Qed.

(** ** Start-up *)

Ltac run_initialize :=
  unfold initialize_model, try_except, assign_pipeline, torch_getattr,
    logger_info, logger_error, ServerStart.print, note;
  unfold mbind, M_bind, mret, M_ret; cbn [pipe trail].

(** X22. The model is loaded from [model_name] when no path is given, from
    the path itself when it starts with [/] or [C:], and from
    [./models/<model_name>] otherwise: a relative path is never used. *)
Theorem model_id_cases :
  ∀ (model_name path : string),
    model_id model_name None = model_name
    ∧ model_id model_name (Some EmptyString) = model_name
    ∧ (path ≠ EmptyString →
       model_id model_name (Some path) =
         if prefix_of "/" path || prefix_of "C:" path
         then path
         else "./models/" +:+ model_name).
Proof.
  intros model_name path. split; [reflexivity |]. split; [reflexivity |].
  intros Hne. unfold model_id. cbn [default]. cbv zeta.
  change (id path) with path.
  rewrite (bool_decide_eq_false_2 _ Hne). cbn [negb andb].
  change (id path) with path.
  by destruct (prefix_of "/" path || prefix_of "C:" path).
Qed.

Lemma model_id_cases_witness :
  model_id "gpt-oss-20b" (Some "weights/latest") = "./models/gpt-oss-20b".
Proof.
  apply (model_id_cases "gpt-oss-20b" "weights/latest"). discriminate.
Defined.

(** What a call of [initialize_model] comes to. *)
Lemma initialize_model_run (lib : libraries) (model_name : string)
    (model_path : option string) (device dtype : string) (st : process) :
  ∃ r evs after,
    initialize_model lib model_name model_path device dtype st
      = (r, {| pipe := after; trail := evs ++ trail st |})
    ∧ existsb is_serve evs = false
    ∧ (length (pipeline_calls evs) ≤ 1)%nat
    ∧ match r with
      | Ok true => ∃ call p, build_pipeline lib call = Ok p ∧ after = Some p
                             ∧ pipeline_calls evs = [call]
      | Ok false => after = pipe st
      | Raise e => is_Exception e = false ∧ after = pipe st
      end.
Proof.
  run_initialize.
  set (choose := if bool_decide (dtype = "auto") then _ else _).
  assert (Hchoose : (∃ name, choose = λ s, (Ok name, s))
                    ∨ choose = λ s, (Raise AttributeError, s)).
  { unfold choose. destruct (bool_decide (dtype = "auto")); [eauto |].
    destruct (torch_has lib dtype); eauto. }
  destruct Hchoose as [[name ->] | ->].
  - match goal with |- context [build_pipeline lib ?c] =>
      set (call := c); destruct (build_pipeline lib call) as [p | e] eqn:Hb end.
    + eexists _, [_; _; _; _; _; _; _], _. split; [reflexivity |].
      split; [reflexivity |]. split; [cbn; lia |]. by exists call, p.
    + destruct (is_Exception e) eqn:He.
      * eexists _, [_; _; _; _; _; _; _], _. split; [reflexivity |].
        split; [reflexivity |]. split; [cbn; lia | reflexivity].
      * eexists _, [_; _; _; _; _], _. split; [reflexivity |].
        split; [reflexivity |]. split; [cbn; lia | by split].
  - cbn [is_Exception]. eexists _, [_; _; _; _], _. split; [reflexivity |].
    split; [reflexivity |]. split; [cbn; lia | reflexivity].
Qed.

(** X23. [initialize_model] never raises an [Exception]: it returns [True]
    with [pipe] holding the pipeline just built, or [False] with [pipe]
    as it was.  It calls [pipeline] at most once, and exactly once when it
    returns [True]. *)
Theorem initialize_model_outcomes :
  ∀ (lib : libraries) (model_name : string) (model_path : option string)
    (device dtype : string) (st : process),
    ∃ r evs after,
      initialize_model lib model_name model_path device dtype st
        = (r, {| pipe := after; trail := evs ++ trail st |})
      ∧ (length (pipeline_calls evs) ≤ 1)%nat
      ∧ match r with
        | Ok true => ∃ call p, build_pipeline lib call = Ok p ∧ after = Some p
                               ∧ pipeline_calls evs = [call]
        | Ok false => after = pipe st
        | Raise e => is_Exception e = false ∧ after = pipe st
        end.
Proof.
  intros lib model_name model_path device dtype st.
  destruct (initialize_model_run lib model_name model_path device dtype st)
    as (r & evs & after & Hrun & _ & Hlen & Hcase).
  by exists r, evs, after.
Qed.

(** X24. A [--dtype] that is not [auto] and names nothing in [torch] makes
    [initialize_model] return [False] before any model is loaded. *)
Theorem initialize_model_unknown_dtype :
  ∀ (lib : libraries) (model_name : string) (model_path : option string)
    (device dtype : string) (st : process),
    dtype ≠ "auto" →
    torch_has lib dtype = false →
    ∃ evs,
      initialize_model lib model_name model_path device dtype st
        = (Ok false, {| pipe := pipe st; trail := evs ++ trail st |})
      ∧ pipeline_calls evs = [].
Proof.
  intros lib model_name model_path device dtype st Hd Hh. run_initialize.
  rewrite bool_decide_eq_false_2 by exact Hd. rewrite Hh. cbn [is_Exception].
  eexists [_; _; _; _]. split; reflexivity.
Qed.

(** X25. With [--dtype auto] the model is asked for in [bfloat16] when CUDA
    is available and in [float32] otherwise, and the device map is [auto]
    for the device [cuda] and the device itself for any other. *)
Theorem initialize_model_pipeline_call :
  ∀ (lib : libraries) (model_name : string) (model_path : option string)
    (device : string) (st : process),
    ∃ r evs,
      trail (snd (initialize_model lib model_name model_path device "auto" st))
        = evs ++ EvPipeline
                   {| task := "text-generation";
                      model := model_id model_name model_path;
                      torch_dtype := if cuda_is_available lib then "bfloat16" else "float32";
                      device_map := if bool_decide (device = "cuda") then "auto" else device;
                      trust_remote_code := true;
                      model_kwargs := {[ "low_cpu_mem_usage" := PBool true;
                                         "use_cache" := PBool true ]} |} r
                 :: EvInfo ("Using dtype: " +:+ str_of_attr lib
                              (if cuda_is_available lib then "bfloat16" else "float32"))
                 :: EvInfo ("Loading model from: " +:+ model_id model_name model_path)
                 :: EvInfo ("Using device: " +:+ device)
                 :: EvInfo ("Initializing Transformers with model: " +:+ model_name)
                 :: trail st.
Proof.
  intros lib model_name model_path device st. run_initialize.
  rewrite bool_decide_eq_true_2 by reflexivity.
  match goal with |- context [build_pipeline lib ?c] =>
    destruct (build_pipeline lib c) as [p | e] end.
  - eexists _, [_; _]. reflexivity.
  - destruct (is_Exception e).
    + eexists _, [_; _]. reflexivity.
    + eexists _, []. reflexivity.
Qed.

Lemma initialize_model_unknown_dtype_witness :
  fst (initialize_model working "gpt-oss-20b" None "cuda" "float8" fresh) = Ok false.
Proof.
  destruct (initialize_model_unknown_dtype working "gpt-oss-20b" None "cuda" "float8" fresh)
    as (evs & -> & _); [discriminate | reflexivity | reflexivity].
Defined.

(** X26. When [initialize_model] does not return [True], [main] leaves
    through [exit(1)] (or with the exception that escaped) and
    [uvicorn.run] is never called; when [main] does call it, [pipe] holds
    a pipeline, so the handler of a served request never answers 503. *)
Theorem main_serves_only_a_loaded_model :
  ∀ (lib : libraries) (args : arguments) (st : process),
    ∃ r evs after,
      main lib args st = (r, {| pipe := after; trail := evs ++ trail st |})
      ∧ (fst (initialize_model lib (arg_model args) (arg_model_path args)
                (arg_device args) (arg_dtype args) st) = Ok false →
         r = Raise (SystemExit 1) ∧ existsb is_serve evs = false ∧ after = pipe st)
      ∧ (existsb is_serve evs = true →
         (∃ p, after = Some p)
         ∧ ∀ str_of_exn request log,
             status_of (fst (chat_completions str_of_exn after request log)) ≠ 503).
Proof.
  intros lib args st. unfold main.
  destruct (initialize_model_run lib (arg_model args) (arg_model_path args)
              (arg_device args) (arg_dtype args) st)
    as (r0 & evs0 & after0 & Hrun & Hserve & _ & Hcase).
  unfold mbind at 1, M_bind at 1. rewrite Hrun. cbn [fst].
  destruct r0 as [[|] | e].
  - destruct Hcase as (call & p & _ & -> & _).
    unfold mbind, M_bind, mret, M_ret, ServerStart.print, note, serve. cbn [negb pipe trail].
    eexists _, (_ :: _ :: evs0), _. split; [reflexivity |].
    split; [intros [=] |]. intros _. split; [by exists p |].
    intros str_of_exn request log.
    pose proof (proj1 (chat_completions_loaded_spec str_of_exn p request log)) as [H | H];
      rewrite H; discriminate.
  - unfold mbind, M_bind, raise. cbn [negb].
    eexists _, evs0, _. split; [reflexivity |].
    split; [intros _; by rewrite Hserve |]. rewrite Hserve. discriminate.
  - unfold mbind, M_bind.
    eexists _, evs0, _. split; [reflexivity |].
    split; [intros [=] |]. rewrite Hserve. discriminate.
Qed.

(** Two starts with the default arguments: without weights the process
    exits with status 1 and never serves; with them it serves on
    127.0.0.1:8000. *)
Example main_exits_without_weights :
  fst (main no_weights default_arguments fresh) = Raise (SystemExit 1)
  ∧ existsb is_serve (trail (snd (main no_weights default_arguments fresh))) = false.
Proof. split; reflexivity. Qed.

Example main_serves_with_weights :
  fst (main working default_arguments fresh) = Ok tt
  ∧ hd_error (trail (snd (main working default_arguments fresh)))
    = Some (EvServe "127.0.0.1" 8000 (Ok tt)).
Proof. split; reflexivity. Qed.

End ServerMore.
